(** * Motion-table regressor generator: a shallow embedding

    The development follows [main.py] (single-run entry point) and [run.py]
    (BIDS-app entry point) of the motion regressor generator.  Both files
    share the table transform [process_motion_tsv] and the per-run pattern
    loop; [run.py] adds the run enumeration from the companion dtseries
    image and the (subject, session) driver.

    Conventions of the embedding.
    - Text is [string]; the builtins [str.strip], [str.split],
      [str.replace] and the formatting [{run:02d}] are written out.
    - The file system is a finite map from path strings to nodes.
    - A [try]/[except] block is a computation in an error type [exn + A];
      the handlers are the function that consumes the error.
    - [print]/[logger] output is a list of structured events. *)

From Stdlib Require Import ZArith Ascii DecimalString.
From Stdlib Require DecimalN DecimalFacts.
From stdpp Require Import gmap strings list sorting.

(** ** Python string builtins *)

Module Py.

(** [s.startswith(p)] *)
Fixpoint startswith (p s : string) : bool :=
  match p, s with
  | EmptyString, _ => true
  | String a p', String b s' => if decide (a = b) then startswith p' s' else false
  | String _ _, EmptyString => false
  end.

(** Characters removed by [str.strip()] without argument, restricted to
    the 7-bit range: TAB, LF, VT, FF, CR, FS, GS, RS, US and SPACE. *)
Definition isspace (c : ascii) : bool :=
  match c with
  | "009" | "010" | "011" | "012" | "013"
  | "028" | "029" | "030" | "031" | " " => true
  | _ => false
  end%char.

Fixpoint lstrip (s : string) : string :=
  match s with
  | EmptyString => EmptyString
  | String c s' => if isspace c then lstrip s' else s
  end.

Definition strip (s : string) : string :=
  String.rev (lstrip (String.rev (lstrip s))).

(** The scanner shared by [split] and [replace]: a left-to-right pass that
    looks for the separator at every position that is not inside a match
    already consumed ([skip] counts the characters of the current match
    still to be dropped). *)
Fixpoint split_go (sep : string) (skip : nat) (cur : string) (s : string)
  : list string :=
  match s with
  | EmptyString => [String.rev cur]
  | String c s' =>
      match skip with
      | S k => split_go sep k cur s'
      | O =>
          if startswith sep s
          then String.rev cur :: split_go sep (String.length sep - 1) EmptyString s'
          else split_go sep O (String c cur) s'
      end
  end.

(** [s.split(sep)] for a non-empty [sep]; also [re.split(sep, s)] when the
    pattern [sep] has no regular-expression metacharacter. *)
Definition split (sep s : string) : list string :=
  split_go sep O EmptyString s.

Fixpoint replace_go (old new : string) (skip : nat) (s : string) : string :=
  match s with
  | EmptyString => EmptyString
  | String c s' =>
      match skip with
      | S k => replace_go old new k s'
      | O =>
          if startswith old s
          then new +:+ replace_go old new (String.length old - 1) s'
          else String c (replace_go old new O s')
      end
  end.

(** [s.replace(old, new)] for a non-empty [old]: no [count] argument, so
    every non-overlapping occurrence found by the left-to-right scan is
    replaced. *)
Definition replace (old new s : string) : string :=
  replace_go old new O s.

Fixpoint drop (n : nat) (s : string) : string :=
  match n, s with
  | S k, String _ s' => drop k s'
  | _, _ => s
  end.

(** [s.replace(old, new, 1)]: the variant that stops after one match. *)
Fixpoint replace_first (old new : string) (s : string) : string :=
  match s with
  | EmptyString => EmptyString
  | String c s' =>
      if startswith old s
      then new +:+ drop (String.length old - 1) s'
      else String c (replace_first old new s')
  end.

(** [sep.join(l)] *)
Fixpoint join (sep : string) (l : list string) : string :=
  match l with
  | [] => EmptyString
  | [x] => x
  | x :: l' => x +:+ sep +:+ join sep l'
  end.

(** [f"{n:02d}"] for a non-negative [n]: decimal digits, left-padded with
    a zero to width two. *)
Definition fmt_02d (n : Z) : string :=
  let d := NilEmpty.string_of_uint (N.to_uint (Z.to_N n)) in
  match d with
  | EmptyString => "00"
  | String c EmptyString => String "0"%char d
  | _ => d
  end.

(** Text-mode line iteration with universal newlines: a line ends at LF,
    at CR LF or at a lone CR; a final unterminated fragment is a line. *)
Fixpoint lines_go (after_cr : bool) (cur : string) (s : string) : list string :=
  match s with
  | EmptyString => match cur with EmptyString => [] | _ => [String.rev cur] end
  | String c s' =>
      if decide (c = "010"%char) then
        if after_cr then lines_go false EmptyString s'
        else String.rev cur :: lines_go false EmptyString s'
      else if decide (c = "013"%char) then
        String.rev cur :: lines_go true EmptyString s'
      else lines_go false (String c cur) s'
  end.

Definition lines (s : string) : list string := lines_go false EmptyString s.


(** [c in s] for a single character [c] *)
Fixpoint has_char (c : ascii) (s : string) : bool :=
  match s with
  | EmptyString => false
  | String x s' => if decide (x = c) then true else has_char c s'
  end.

(** [p in s] *)
Fixpoint contains (p s : string) : bool :=
  startswith p s ||
  match s with
  | EmptyString => false
  | String _ s' => contains p s'
  end.

End Py.

(** ** Exceptions, results and the log *)

(** The exception classes the handlers of [process_motion_tsv] tell apart:
    [FileNotFoundError], [pandas.errors.EmptyDataError], and every other
    subclass of [Exception] (carried with its class name and message).
    Message texts are abbreviated. *)
Inductive exn : Type :=
| FileNotFoundError (msg : string)
| EmptyDataError (msg : string)
| OtherException (cls msg : string).

Inductive res (A : Type) : Type :=
| Ok (a : A)
| Raise (e : exn).
Arguments Ok {A} a.
Arguments Raise {A} e.

(** The [print] / [logger] calls, whatever their level; the payloads are
    the values interpolated into the message.  Calls that follow each other
    at one site are one event. *)
Inductive event : Type :=
| DetectedColumns (headers : list string)
| MissingColumns (missing : list string)
| AvailableColumns (available : list string)
| SavingTo (path : string)
| Completed (nrows ncols : nat)
| FileNotFound (path : string)
| FileEmpty (path : string)
| ErrorProcessing (msg : string)
| FuncDirMissing (path : string)
| DtseriesMissing (path : string)
| Timepoints (n : Z)
| RestRuns (n : Z)
| ProcessingRun (subject session task run : string)
| CheckingPattern (description input_filename output_filename : string)
| InputMissing
| OutputExists
| ProcessingPattern (description : string)
| FailedToProcess (input_filename : string)
| Processed (count : nat) (subject session : string)
| NothingProcessed (subject session : string)
| StartingLevel (analysis_level : string)
| ProcessingAll (bids_dir : string)
| ProcessingSpecified (participant_labels : list string)
| LabelsNotSpecified
| ProcessingParticipant (subject : string)
| SubjectDirMissing (path : string)
| NoSessions (subject : string)
| ProcessingSession (session : string)
| ErrorSubjectSession (subject session msg : string).

(** A [try] body: the events logged so far, and a value or the exception
    that interrupted it. *)
Definition M (A : Type) : Type := list event * res A.

Definition ret {A} (a : A) : M A := ([], Ok a).
Definition tell (e : event) : M unit := ([e], Ok tt).
Definition lift {A} (r : res A) : M A := ([], r).
Definition bind {A B} (m : M A) (f : A -> M B) : M B :=
  match m with
  | (l, Ok a) => let '(l', r) := f a in (l ++ l', r)
  | (l, Raise e) => (l, Raise e)
  end.

Notation "'let*' x ':=' m 'in' k" := (bind m (fun x => k))
  (at level 10, x pattern, m at level 100, k at level 200).

(** ** The file system *)

Inductive node : Type :=
| Dir
| File (content : string).

(** [Path.exists()] *)
Definition path_exists (fs : gmap string node) (p : string) : bool :=
  match fs !! p with Some _ => true | None => false end.

(** [Path(a) / b] and [str] of it, for a normalised [a] and a relative
    single component [b]. *)
Definition path_join (a b : string) : string := a +:+ "/" +:+ b.

(** [open(path, 'r')] followed by reading the whole text. *)
Definition open_read (fs : gmap string node) (p : string) : res string :=
  match fs !! p with
  | None => Raise (FileNotFoundError p)
  | Some Dir => Raise (OtherException "IsADirectoryError" p)
  | Some (File text) => Ok text
  end.

(** [file.readline()] on a freshly opened file, without its terminator. *)
Definition readline (text : string) : string :=
  match Py.lines text with
  | [] => EmptyString
  | l :: _ => l
  end.

(** ** The part of pandas the transform uses *)

Module Pd.

Inductive cell : Type :=
| Val (s : string)
| NaN.

(** A frame: column labels and rows of cells.  Cells keep the text of the
    parsed field; the dtype inference of pandas is not represented. *)
Record DataFrame (L : Type) : Type := mkDF {
  columns : list L;
  data : list (list cell)
}.
Arguments mkDF {L} columns data.
Arguments columns {L} d.
Arguments data {L} d.

(** [len(df)] *)
Definition len {L} (df : DataFrame L) : nat := length (data df).

(** A parsed line is dropped as blank when it is a single field that is
    empty after stripping ([skip_blank_lines=True]). *)
Definition nonblank (fields : list string) : bool :=
  match fields with
  | [] => false
  | [f] => match Py.strip f with EmptyString => false | _ => true end
  | _ => true
  end.

(** The python engine with a separator longer than one character: every
    line is stripped and split with [re.split(sep, line)]. *)
Definition parse_line (sep : string) (line : string) : list string :=
  Py.split sep (Py.strip line).

Definition pad (n : nat) (fields : list string) : list cell :=
  map Val fields ++ replicate (n - length fields) NaN.

(** [pd.read_csv(text, sep=sep, header=None, skiprows=skiprows,
    engine='python')] for a multi-character [sep] without metacharacters.
    The first remaining non-blank line fixes the number of columns; a
    longer line is a [ParserError]; a shorter one is padded with NaN; no
    line at all is an [EmptyDataError].  Columns are labelled 0..n-1. *)
Definition read_csv (sep : string) (skiprows : nat) (text : string)
  : res (DataFrame nat) :=
  let rows := filter (fun r => nonblank r = true)
                (map (parse_line sep) (drop skiprows (Py.lines text))) in
  match rows with
  | [] => Raise (EmptyDataError "No columns to parse from file")
  | r0 :: _ =>
      let n := length r0 in
      if forallb (fun r => Nat.leb (length r) n) rows
      then Ok (mkDF (seq 0 n) (map (pad n) rows))
      else Raise (OtherException "ParserError" "Expected fewer fields in line")
  end.

(** [df.columns = labels] *)
Definition set_columns {L} (labels : list string) (df : DataFrame L)
  : res (DataFrame string) :=
  if decide (length labels = length (columns df))
  then Ok (mkDF labels (data df))
  else Raise (OtherException "ValueError" "Length mismatch").

(** Positions of the columns labelled [k], left to right. *)
Fixpoint positions (k : string) (i : nat) (cols : list string) : list nat :=
  match cols with
  | [] => []
  | c :: cols' =>
      if decide (c = k) then i :: positions k (S i) cols'
      else positions k (S i) cols'
  end.

Definition take_cells (idx : list nat) (row : list cell) : list cell :=
  map (fun i => nth i row NaN) idx.

(** [df[keys]] with a list of labels: for every key in turn, every column
    carrying that label; a [KeyError] when a key labels no column. *)
Definition getitem (keys : list string) (df : DataFrame string)
  : res (DataFrame string) :=
  if forallb (fun k => bool_decide (k ∈ columns df)) keys
  then
    let sel := flat_map (fun k => map (fun i => (k, i)) (positions k 0 (columns df))) keys in
    Ok (mkDF (map fst sel) (map (take_cells (map snd sel)) (data df)))
  else Raise (OtherException "KeyError" "not in index").

Fixpoint assoc (m : list (string * string)) (k : string) : option string :=
  match m with
  | [] => None
  | (k', v) :: m' => if decide (k' = k) then Some v else assoc m' k
  end.

(** [df.rename(columns=mapping)] *)
Definition rename (mapping : list (string * string)) (df : DataFrame string)
  : DataFrame string :=
  mkDF (map (fun c => default c (assoc mapping c)) (columns df)) (data df).

Definition cell_text (c : cell) : string :=
  match c with Val s => s | NaN => EmptyString end.

Definition TAB : string := String "009"%char EmptyString.
Definition LF : string := String "010"%char EmptyString.

(** The text written by [df.to_csv(path, sep='\t', index=False)]: a header
    row and one row per record, tab-separated, each ended by a line feed.
    Field quoting and number formatting are not represented. *)
Definition to_csv_text (df : DataFrame string) : string :=
  foldr (fun l acc => l +:+ LF +:+ acc) EmptyString
    (Py.join TAB (columns df) :: map (fun r => Py.join TAB (map cell_text r)) (data df)).

End Pd.

(** ** The environment *)

(** What the program obtains from outside the file-system map.
    - [can_write p]: the operating system lets the process create or
      truncate a regular file at [p] (parent directory present,
      permissions, space).  The pipeline creates no directory and removes
      nothing, so this does not change while it runs.
    - [nib_shape bytes]: [nib.load(path).shape] as a function of the bytes
      of the image; the reader is an external collaborator and only the
      first axis is used.
    - [get_subjects fs bids_dir]:
      [BIDSLayout(bids_dir, validate=False).get_subjects()], the external
      directory-layout indexer. *)
Record env : Type := mkEnv {
  can_write : string -> bool;
  nib_shape : string -> res (list Z);
  get_subjects : gmap string node -> string -> list string
}.

(** ** The table transform (identical in [main.py] and [run.py]) *)

Definition column_mapping : list (string * string) :=
  [ ("trans_x_mm", "X");
    ("trans_y_mm", "Y");
    ("trans_z_mm", "Z");
    ("rot_x_degrees", "RotX");
    ("rot_y_degrees", "RotY");
    ("rot_z_degrees", "RotZ");
    ("trans_x_mm_dt", "XDt");
    ("trans_y_mm_dt", "YDt");
    ("trans_z_mm_dt", "ZDt");
    ("rot_x_degrees_dt", "RotXDt");
    ("rot_y_degrees_dt", "RotYDt");
    ("rot_z_degrees_dt", "RotZDt") ].

(** [list(column_mapping.keys())] *)
Definition required_cols : list string := map fst column_mapping.

(** Opening the output for writing and storing the text; the write is taken
    to be atomic. *)
Definition write_text (E : env) (fs : gmap string node) (p text : string)
  : res (gmap string node) :=
  match fs !! p with
  | Some Dir => Raise (OtherException "IsADirectoryError" p)
  | _ =>
      if can_write E p then Ok (<[p := File text]> fs)
      else Raise (OtherException "OSError" p)
  end.

(** The body of the [try] block of [process_motion_tsv]. *)
Definition transform (E : env) (fs : gmap string node)
    (input_filepath output_filepath : string)
  : M (gmap string node * bool) :=
  let* text := lift (open_read fs input_filepath) in
  let header_line := Py.strip (readline text) in
  let headers := Py.split Pd.TAB header_line in
  let* _ := tell (DetectedColumns headers) in
  let* body := lift (open_read fs input_filepath) in
  let* df0 := lift (Pd.read_csv "   " 1 body) in
  let* df_split := lift (Pd.set_columns headers df0) in
  let missing_cols := filter (fun col => col ∉ Pd.columns df_split) required_cols in
  match missing_cols with
  | _ :: _ =>
      let* _ := tell (MissingColumns missing_cols) in
      let* _ := tell (AvailableColumns (Pd.columns df_split)) in
      ret (fs, false)
  | [] =>
      let* df_sel := lift (Pd.getitem required_cols df_split) in
      let df_filtered := Pd.rename column_mapping df_sel in
      let* _ := tell (SavingTo output_filepath) in
      let* fs' := lift (write_text E fs output_filepath (Pd.to_csv_text df_filtered)) in
      let* _ := tell (Completed (Pd.len df_filtered) (length (Pd.columns df_filtered))) in
      ret (fs', true)
  end.

(** The three [except] clauses of [process_motion_tsv]: each logs one
    message (and the function then returns [False]). *)
Definition handler (input_filepath : string) (e : exn) : event :=
  match e with
  | FileNotFoundError _ => FileNotFound input_filepath
  | EmptyDataError _ => FileEmpty input_filepath
  | OtherException _ msg => ErrorProcessing msg
  end.

(** [process_motion_tsv]: the [try] body followed by its handlers.
    ([run.py] logs the same events without the two counts.) *)
Definition process_motion_tsv (E : env) (fs : gmap string node)
    (input_filepath output_filepath : string)
  : gmap string node * list event * bool :=
  match transform E fs input_filepath output_filepath with
  | (l, Ok (fs', b)) => (fs', l, b)
  | (l, Raise e) => (fs, l ++ [handler input_filepath e], false)
  end.

(** ** The pattern loop (identical in [main.py] and [run.py]) *)

Record pattern : Type := mkPattern {
  input_suffix : string;
  output_suffix : string;
  description : string
}.

Definition file_patterns : list pattern :=
  [ mkPattern "_desc-filteredincludingFD_motion.tsv" "_desc-filtered_motion.tsv"
      "Filtered including FD -> Filtered";
    mkPattern "_desc-includingFD_motion.tsv" "_motion.tsv"
      "Including FD -> Motion" ].

(** [run.replace('run-0', 'run-')] *)
Definition depad (run : string) : string := Py.replace "run-0" "run-" run.

Definition input_filename (base_filename run : string) (pat : pattern) : string :=
  base_filename +:+ "_" +:+ run +:+ input_suffix pat.

Definition output_filename (base_filename new_run : string) (pat : pattern) : string :=
  base_filename +:+ "_" +:+ new_run +:+ output_suffix pat.

(** One iteration of [for pattern in file_patterns]; the state is the file
    system, the log and [processed_count]. *)
Definition process_pattern (E : env) (func_dir base_filename run new_run : string)
    (st : gmap string node * list event * nat) (pat : pattern)
  : gmap string node * list event * nat :=
  let '(fs, log, processed_count) := st in
  let input_filepath := path_join func_dir (input_filename base_filename run pat) in
  let output_filepath := path_join func_dir (output_filename base_filename new_run pat) in
  let log := log ++ [CheckingPattern (description pat)
                       (input_filename base_filename run pat)
                       (output_filename base_filename new_run pat)] in
  if negb (path_exists fs input_filepath) then (fs, log ++ [InputMissing], processed_count)
  else if path_exists fs output_filepath then (fs, log ++ [OutputExists], processed_count)
  else
    let '(fs', l, ok) := process_motion_tsv E fs input_filepath output_filepath in
    let log := log ++ [ProcessingPattern (description pat)] ++ l in
    if ok then (fs', log, S processed_count)
    else (fs', log ++ [FailedToProcess (input_filename base_filename run pat)], processed_count).

(** The statements from [new_run = ...] to the final summary message. *)
Definition process_patterns (E : env) (fs : gmap string node)
    (func_dir subject session task run : string)
  : gmap string node * list event :=
  let new_run := depad run in
  let base_filename := subject +:+ "_" +:+ session +:+ "_task-" +:+ task in
  let '(fs', log, processed_count) :=
    foldl (process_pattern E func_dir base_filename run new_run)
      (fs, [ProcessingRun subject session task run], O) file_patterns in
  (fs', log ++ [if Nat.ltb 0 processed_count
                then Processed processed_count subject session
                else NothingProcessed subject session]).

(** [Path(data_dir) / subject / session / 'func'] *)
Definition func_dir_of (data_dir subject session : string) : string :=
  path_join (path_join (path_join data_dir subject) session) "func".

(** ** The command-line entry points *)

(** What the two [main] functions print or log themselves; [Logged] carries
    the events of the functions they call. *)
Inductive cli_event : Type :=
| Logged (e : event)
| DataDirMissing (path : string)
| ProcessingCompleted
| BidsDirMissing (path : string)
| RunningValidation
| ValidatorUnavailable
| ValidatorError (msg : string)
| ValidationFailed
| UnknownLevel (analysis_level : string)
| AllCompleted.

(** How the [try] block of [run_bids_validator] ends: the import and the
    construction of the validator succeed, the import raises [ImportError],
    or another exception is raised. *)
Inductive validator_state : Type :=
| ValidatorReady
| ValidatorImportError
| ValidatorRaises (msg : string).

(** ** [main.py] *)

Module Main.

Definition process_subject_session (E : env) (fs : gmap string node)
    (data_dir subject session task run : string)
  : gmap string node * list event :=
  let func_dir := func_dir_of data_dir subject session in
  if negb (path_exists fs func_dir) then (fs, [FuncDirMissing func_dir])
  else process_patterns E fs func_dir subject session task run.

(** [main], from the parsed arguments on; the result ends with the exit
    status of the process.  ([process_subject_session] lets no exception
    out in this embedding, so the [except] clause around it has nothing to
    catch.) *)
Definition main (E : env) (fs : gmap string node)
    (data_dir subject session task run : string)
  : gmap string node * list cli_event * Z :=
  if negb (path_exists fs data_dir) then (fs, [DataDirMissing data_dir], 1%Z)
  else
    let '(fs', l) := process_subject_session E fs data_dir subject session task run in
    (fs', map Logged l ++ [ProcessingCompleted], 0%Z).

End Main.

(** ** [run.py] *)

Module Run.

Definition process_run (E : env) (fs : gmap string node)
    (func_dir subject session task run : string)
  : gmap string node * list event :=
  process_patterns E fs func_dir subject session task run.

(** [nib.load(str(dtseries)).shape] *)
Definition load_shape (E : env) (fs : gmap string node) (p : string) : res (list Z) :=
  match open_read fs p with
  | Ok bytes => nib_shape E bytes
  | Raise e => Raise e
  end.

(** [f"run-{run:02d}" for run in range(1, run_counts + 1)] *)
Definition run_ids (run_counts : Z) : list string :=
  map (fun run => "run-" +:+ Py.fmt_02d run) (seqZ 1 run_counts).

Definition dtseries_of (func_dir subject session : string) : string :=
  path_join func_dir
    (subject +:+ "_" +:+ session +:+ "_task-rest_bold_desc-filtered_timeseries.dtseries.nii").

(** The third component is [Raise e] when an exception leaves the function
    (the image cannot be loaded, or its shape is empty). *)
Definition process_subject_session (E : env) (fs : gmap string node)
    (bids_dir subject session : string)
  : gmap string node * list event * res unit :=
  let func_dir := func_dir_of bids_dir subject session in
  if negb (path_exists fs func_dir) then (fs, [FuncDirMissing func_dir], Ok tt)
  else
    let dtseries := dtseries_of func_dir subject session in
    if negb (path_exists fs dtseries) then (fs, [DtseriesMissing dtseries], Ok tt)
    else
      match load_shape E fs dtseries with
      | Raise e => (fs, [], Raise e)
      | Ok [] => (fs, [], Raise (OtherException "IndexError" "tuple index out of range"))
      | Ok (n0 :: _) =>
          let run_counts := (n0 / 383)%Z in
          let '(fs', log) :=
            foldl (fun '(fs, log) run_str =>
                     let '(fs', l) := process_run E fs func_dir subject session "rest" run_str in
                     (fs', log ++ l))
              (fs, [Timepoints n0; RestRuns run_counts]) (run_ids run_counts) in
          (fs', log, Ok tt)
      end.

Definition exn_message (e : exn) : string :=
  match e with
  | FileNotFoundError m | EmptyDataError m | OtherException _ m => m
  end.

(** The body of the two nested [for] loops of [run_participant_level]
    for one (participant, session) pair. *)
Definition process_pair (E : env) (bids_dir : string) (session_labels : list string)
    (st : gmap string node * list event) (pair : string * string)
  : gmap string node * list event :=
  let '(fs, log) := st in
  let '(participant_label, session_label) := pair in
  let subject := "sub-" +:+ participant_label in
  let session := "ses-" +:+ session_label in
  let log := log ++ [ProcessingParticipant subject] in
  let subject_dir := path_join bids_dir subject in
  if negb (path_exists fs subject_dir) then (fs, log ++ [SubjectDirMissing subject_dir])
  else
    match session_labels with
    | [] => (fs, log ++ [NoSessions subject])
    | _ :: _ =>
        let log := log ++ [ProcessingSession session] in
        match process_subject_session E fs bids_dir subject session with
        | (fs', l, Ok _) => (fs', log ++ l)
        | (fs', l, Raise e) =>
            (fs', log ++ l ++ [ErrorSubjectSession subject session (exn_message e)])
        end
    end.

(** [for participant_label in ...: for session_label in ...:] *)
Definition process_pairs (E : env) (fs : gmap string node) (bids_dir : string)
    (participant_labels session_labels : list string)
  : gmap string node * list event :=
  foldl (process_pair E bids_dir session_labels) (fs, [])
    (flat_map (fun p => map (fun s => (p, s)) session_labels) participant_labels).

(** Names of the entries of directory [d] ([Path.iterdir]) that are
    themselves directories. *)
Definition subdirs (fs : gmap string node) (d : string) : list string :=
  flat_map (fun '(p, n) =>
              match n with
              | Dir =>
                  if Py.startswith (d +:+ "/") p
                  then
                    let name := Py.drop (String.length d + 1) p in
                    match Py.split "/" name with
                    | [_] => [name]
                    | _ => []
                    end
                  else []
              | File _ => []
              end) (map_to_list fs).

(** Session discovery of the group level. *)
Definition discover_sessions (fs : gmap string node) (bids_dir : string)
    (participant_labels : list string) : list string :=
  let all_sessions :=
    flat_map (fun participant_label =>
                let subject_dir := path_join bids_dir ("sub-" +:+ participant_label) in
                if path_exists fs subject_dir
                then map (Py.replace "ses-" EmptyString)
                       (filter (fun name => Py.startswith "ses-" name = true)
                          (subdirs fs subject_dir))
                else []) participant_labels in
  merge_sort String.le (remove_dups all_sessions).

Inductive status : Type :=
| Returned
| SysExit (code : Z).

(** Labels given on the command line are [None] when the option is
    absent. *)
Definition run_participant_level (E : env) (fs : gmap string node)
    (bids_dir analysis_level : string)
    (participant_labels session_labels : option (list string))
  : gmap string node * list event * status :=
  let log := [StartingLevel analysis_level] in
  if decide (analysis_level = "group") then
    let participant_labels :=
      map (Py.replace "sub-" EmptyString) (get_subjects E fs bids_dir) in
    let session_labels := discover_sessions fs bids_dir participant_labels in
    let '(fs', l) := process_pairs E fs bids_dir participant_labels session_labels in
    (fs', log ++ [ProcessingAll bids_dir] ++ l, Returned)
  else
    match participant_labels, session_labels with
    | Some (p :: ps), Some (s :: ss) =>
        let '(fs', l) := process_pairs E fs bids_dir (p :: ps) (s :: ss) in
        (fs', log ++ [ProcessingSpecified (p :: ps)] ++ l, Returned)
    | _, _ => (fs, log ++ [LabelsNotSpecified], SysExit 1)
    end.

(** [run_bids_validator]: the no-op check passes when the validator is
    there and when its package is missing, and fails on any other
    exception. *)
Definition run_bids_validator (v : validator_state) : list cli_event * bool :=
  match v with
  | ValidatorReady => ([RunningValidation], true)
  | ValidatorImportError => ([ValidatorUnavailable], true)
  | ValidatorRaises msg => ([ValidatorError msg], false)
  end.

(** [main], from the parsed arguments on; the result ends with the exit
    status of the process.  [sys.exit] inside [run_participant_level] is not
    an [Exception] and passes the [except] clause. *)
Definition main (E : env) (v : validator_state) (fs : gmap string node)
    (bids_dir analysis_level : string)
    (participant_label session_label : option (list string))
    (skip_bids_validator : bool)
  : gmap string node * list cli_event * Z :=
  if negb (path_exists fs bids_dir) then (fs, [BidsDirMissing bids_dir], 1%Z)
  else
    let '(vlog, valid) :=
      if negb skip_bids_validator then run_bids_validator v else ([], true) in
    if negb valid then (fs, vlog ++ [ValidationFailed], 1%Z)
    else
      match analysis_level with
      | EmptyString => (fs, vlog ++ [UnknownLevel analysis_level], 1%Z)
      | _ =>
          match run_participant_level E fs bids_dir analysis_level
                  participant_label session_label with
          | (fs', l, Returned) => (fs', vlog ++ map Logged l ++ [AllCompleted], 0%Z)
          | (fs', l, SysExit code) => (fs', vlog ++ map Logged l, code)
          end
      end.

End Run.



(** ** Observations on the log *)

(** The run identifiers handed to the pattern loop, in order. *)
Definition runs_of_log (log : list event) : list string :=
  omap (fun e => match e with ProcessingRun _ _ _ run => Some run | _ => None end) log.

(** The input file names examined by the pattern loop, in order. *)
Definition inputs_checked (log : list event) : list string :=
  omap (fun e => match e with CheckingPattern _ i _ => Some i | _ => None end) log.

(** The subjects and sessions the driver reached, in order. *)
Definition subjects_of_log (log : list event) : list string :=
  omap (fun e => match e with ProcessingParticipant s => Some s | _ => None end) log.

(** The nesting depth of the call site of an event: 0 inside
    [process_motion_tsv], 1 in the pattern loop, 2 around it, 3 in the
    session function of [run.py], 4 in its driver. *)
Definition level (e : event) : nat :=
  match e with
  | DetectedColumns _ | MissingColumns _ | AvailableColumns _ | SavingTo _
  | Completed _ _ | FileNotFound _ | FileEmpty _ | ErrorProcessing _ => 0
  | CheckingPattern _ _ _ | InputMissing | OutputExists
  | ProcessingPattern _ | FailedToProcess _ => 1
  | ProcessingRun _ _ _ _ | Processed _ _ _ | NothingProcessed _ _ => 2
  | FuncDirMissing _ | DtseriesMissing _ | Timepoints _ | RestRuns _ => 3
  | _ => 4
  end.


(** [str(k)] for a non-negative [k]: plain decimal digits. *)
Definition decimal (k : Z) : string := NilEmpty.string_of_uint (N.to_uint (Z.to_N k)).

(** ** The effect on the file system alone *)

(** One pattern iteration, as a function of the input and output paths. *)
Definition job_step (E : env) (fs : gmap string node) (job : string * string)
  : gmap string node :=
  if negb (path_exists fs job.1) then fs
  else if path_exists fs job.2 then fs
  else (process_motion_tsv E fs job.1 job.2).1.1.

(** The (input path, output path) pairs of the pattern loop. *)
Definition jobs_of (func_dir subject session task run : string) : list (string * string) :=
  let base_filename := subject +:+ "_" +:+ session +:+ "_task-" +:+ task in
  map (fun pat => (path_join func_dir (input_filename base_filename run pat),
                   path_join func_dir (output_filename base_filename (depad run) pat)))
    file_patterns.


(** [fs'] is [fs] with new regular files at paths that satisfy [Q]: every
    path holds what it held before, or was absent and now holds a file. *)
Definition extends_with (Q : string -> Prop) (fs fs' : gmap string node) : Prop :=
  forall p, fs' !! p = fs !! p \/
            (fs !! p = None /\ (exists text, fs' !! p = Some (File text)) /\ Q p).

(** The pattern iterations of one call of [process_subject_session] of
    [run.py], as decided by the file system it starts from. *)
Definition session_jobs (E : env) (fs : gmap string node)
    (bids_dir subject session : string) : list (string * string) :=
  let func_dir := func_dir_of bids_dir subject session in
  if path_exists fs func_dir && path_exists fs (Run.dtseries_of func_dir subject session)
  then
    match Run.load_shape E fs (Run.dtseries_of func_dir subject session) with
    | Ok (n0 :: _) =>
        flat_map (jobs_of func_dir subject session "rest") (Run.run_ids (n0 / 383))
    | _ => []
    end
  else [].

(** The pattern iterations of one (participant, session) pair. *)
Definition pair_jobs (E : env) (fs : gmap string node) (bids_dir : string)
    (session_labels : list string) (pair : string * string) : list (string * string) :=
  if path_exists fs (path_join bids_dir ("sub-" +:+ pair.1))
  then
    match session_labels with
    | [] => []
    | _ :: _ => session_jobs E fs bids_dir ("sub-" +:+ pair.1) ("ses-" +:+ pair.2)
    end
  else [].

(** [headers] of [process_motion_tsv], as computed from the text of the input file. *)
Definition headers_of (text : string) : list string :=
  Py.split Pd.TAB (Py.strip (readline text)).

(** ** The delimiter as the specification words it *)



(** ** Sample data *)

(** An environment in which every path is writable, the image reader
    reports the number of bytes as the only axis, and the indexer finds no
    subject. *)
Definition sample_env : env :=
  mkEnv (fun _ => true) (fun bytes => Ok [Z.of_nat (String.length bytes)]) (fun _ _ => []).

Definition sample_row : string :=
  Py.join "   " ["0.1"; "0.2"; "0.3"; "1.0"; "2.0"; "3.0";
                 "0.01"; "0.02"; "0.03"; "0.1"; "0.2"; "0.3"; "0.5"].

(** A well-formed table: the twelve canonical columns and one more. *)
Definition sample_table : string :=
  Py.join Pd.TAB (required_cols ++ ["framewise_displacement"]) +:+ Pd.LF +:+
  sample_row +:+ Pd.LF +:+ sample_row +:+ Pd.LF.

(** A header line alone. *)
Definition sample_header_only : string :=
  Py.join Pd.TAB (required_cols ++ ["framewise_displacement"]) +:+ Pd.LF.

(** Twelve header names over thirteen fields. *)
Definition sample_narrow_header : string :=
  Py.join Pd.TAB required_cols +:+ Pd.LF +:+ sample_row +:+ Pd.LF.




(** An image of [n] bytes; [sample_env] reports [n] as its first axis. *)
Definition sample_image (n : nat) : string := Nat.iter n (String "0"%char) EmptyString.

(** A session directory with a 766-sample image and the unfiltered motion
    table of the first run. *)
Definition sample_bids_fs : gmap string node :=
  {[ "root/sub-01" := Dir;
     "root/sub-01/ses-01/func" := Dir;
     "root/sub-01/ses-01/func/sub-01_ses-01_task-rest_bold_desc-filtered_timeseries.dtseries.nii"
       := File (sample_image 766);
     "root/sub-01/ses-01/func/sub-01_ses-01_task-rest_run-01_desc-includingFD_motion.tsv"
       := File sample_table ]}.

Definition sample_fs (text : string) : gmap string node :=
  {[ "in.tsv" := File text ]}.

(** * Properties *)

(** ** Strings *)

Lemma str_app_cons (c : ascii) (a b : string) : String c a +:+ b = String c (a +:+ b).
Proof. reflexivity. Qed.

Lemma str_app_nil_r (s : string) : s +:+ "" = s.
Proof. induction s as [|c s IH]; [reflexivity|]. rewrite str_app_cons, IH. reflexivity. Qed.

Lemma str_length_app (a b : string) :
  String.length (a +:+ b) = (String.length a + String.length b)%nat.
Proof. induction a as [|x a IH]; [reflexivity|]. rewrite str_app_cons. simpl. rewrite IH. reflexivity. Qed.

Lemma startswith_app (p s : string) : Py.startswith p (p +:+ s) = true.
Proof.
  induction p as [|c p IH]; [reflexivity|].
  rewrite str_app_cons. simpl. rewrite decide_True by reflexivity. exact IH.
Qed.

Lemma startswith_inv (p s : string) :
  Py.startswith p s = true -> s = p +:+ Py.drop (String.length p) s.
Proof.
  revert s. induction p as [|c p IH]; intros s H; [reflexivity|].
  destruct s as [|b s]; [discriminate|]. simpl in H.
  destruct (decide (c = b)) as [->|]; [|discriminate].
  rewrite str_app_cons. simpl. f_equal. apply IH, H.
Qed.

(** ** Run de-padding *)

Lemma depad_match (s : string) : depad ("run-0" +:+ s) = "run-" +:+ depad s.
Proof.
  unfold depad, Py.replace.
  change ("run-0" +:+ s) with (String "r" ("un-0" +:+ s)).
  cbn [Py.replace_go].
  change (Py.startswith "run-0" (String "r" ("un-0" +:+ s)))
    with (Py.startswith "run-0" ("run-0" +:+ s)).
  rewrite startswith_app. reflexivity.
Qed.

Lemma depad_no_match (c : ascii) (s : string) :
  Py.startswith "run-0" (String c s) = false -> depad (String c s) = String c (depad s).
Proof.
  intros H. unfold depad, Py.replace. cbn [Py.replace_go]. rewrite H. reflexivity.
Qed.

(** C3 (as amended).  The de-padding [run.replace('run-0', 'run-')] rewrites
    every occurrence of [run-0] met by a left-to-right scan, not only the
    first one: the empty string is unchanged, a string that starts with
    [run-0] has it replaced by [run-] and the rest is de-padded in turn, and
    any other first character is kept and the rest de-padded.  In particular
    [run-01] gives [run-1], [run-02] gives [run-2], [run-10] is unchanged and
    [run-00] gives [run-0]. *)
Theorem depad_replaces_every_occurrence :
  depad "" = "" /\
  (forall s, depad ("run-0" +:+ s) = "run-" +:+ depad s) /\
  (forall c s, Py.startswith "run-0" (String c s) = false ->
               depad (String c s) = String c (depad s)) /\
  depad "run-01" = "run-1" /\ depad "run-02" = "run-2" /\
  depad "run-10" = "run-10" /\ depad "run-00" = "run-0".
Proof.
  split; [reflexivity|].
  split; [exact depad_match|].
  split; [exact depad_no_match|].
  repeat split; reflexivity.
Qed.

Lemma depad_replaces_every_occurrence_witness :
  depad "xrun-01" = String "x" (depad "run-01").
Proof.
  apply (proj1 (proj2 (proj2 depad_replaces_every_occurrence))).
  reflexivity.
Defined.

(** C3 (counterexample).  On a run string with two occurrences of [run-0]
    the code rewrites both; replacing the first occurrence only would keep
    the second. *)
Lemma depad_not_first_only :
  depad "run-01_run-02" = "run-1_run-2" /\
  Py.replace_first "run-0" "run-" "run-01_run-02" = "run-1_run-02" /\
  depad "run-01_run-02" <> Py.replace_first "run-0" "run-" "run-01_run-02".
Proof. repeat split; try reflexivity. discriminate. Qed.

(** ** The table transform *)

#[local] Arguments Pd.read_csv : simpl never.
#[local] Arguments Pd.set_columns : simpl never.
#[local] Arguments Pd.getitem : simpl never.
#[local] Arguments Pd.rename : simpl never.
#[local] Arguments Pd.to_csv_text : simpl never.
#[local] Arguments Py.split : simpl never.
#[local] Arguments Py.strip : simpl never.
#[local] Arguments readline : simpl never.
#[local] Arguments filter : simpl never.
#[local] Arguments required_cols : simpl never.
#[local] Arguments column_mapping : simpl never.

(** The transform, stage by stage. *)
Lemma process_motion_tsv_unfold (E : env) (fs : gmap string node) (inp out : string) :
  process_motion_tsv E fs inp out =
  match open_read fs inp with
  | Raise e => (fs, [handler inp e], false)
  | Ok text =>
    let headers := headers_of text in
    match Pd.read_csv "   " 1 text with
    | Raise e => (fs, [DetectedColumns headers; handler inp e], false)
    | Ok df0 =>
      match Pd.set_columns headers df0 with
      | Raise e => (fs, [DetectedColumns headers; handler inp e], false)
      | Ok df_split =>
        match filter (fun col => col ∉ Pd.columns df_split) required_cols with
        | m :: ms =>
            (fs, [DetectedColumns headers; MissingColumns (m :: ms);
                  AvailableColumns (Pd.columns df_split)], false)
        | [] =>
          match Pd.getitem required_cols df_split with
          | Raise e => (fs, [DetectedColumns headers; handler inp e], false)
          | Ok df_sel =>
            let df_filtered := Pd.rename column_mapping df_sel in
            match write_text E fs out (Pd.to_csv_text df_filtered) with
            | Raise e => (fs, [DetectedColumns headers; SavingTo out; handler inp e], false)
            | Ok fs' =>
                (fs', [DetectedColumns headers; SavingTo out;
                       Completed (Pd.len df_filtered) (length (Pd.columns df_filtered))], true)
            end
          end
        end
      end
    end
  end.
Proof.
  unfold process_motion_tsv, transform, headers_of, bind, lift, tell, ret.
  destruct (open_read fs inp) as [text|e]; [|reflexivity]. simpl.
  destruct (Pd.read_csv "   " 1 text) as [df0|e]; [|reflexivity]. simpl.
  destruct (Pd.set_columns _ df0) as [df_split|e]; [|reflexivity]. simpl.
  destruct (filter _ required_cols) as [|m ms]; [|reflexivity]. simpl.
  destruct (Pd.getitem required_cols df_split) as [df_sel|e]; [|reflexivity]. simpl.
  destruct (write_text E fs out _) as [fs'|e]; reflexivity.
Qed.

Lemma handler_event (inp : string) (e : exn) : level (handler inp e) = 0%nat.
Proof. destruct e; reflexivity. Qed.

Ltac pmt_cases :=
  rewrite process_motion_tsv_unfold; cbv zeta;
  destruct (open_read _ _) as [?text|?e] eqn:?Hopen;
  [destruct (Pd.read_csv _ _ _) as [?df0|?e] eqn:?Hread;
   [destruct (Pd.set_columns _ _) as [?df_split|?e] eqn:?Hset;
    [destruct (filter _ required_cols) as [|?m ?ms] eqn:?Hmiss;
     [destruct (Pd.getitem _ _) as [?df_sel|?e] eqn:?Hsel;
      [destruct (write_text _ _ _ _) as [?fs'|?e] eqn:?Hwrite|]|]|]|]|];
  cbn [fst snd].

Lemma process_motion_tsv_events (E : env) (fs : gmap string node) (inp out : string) :
  Forall (fun e => level e = 0%nat) (process_motion_tsv E fs inp out).1.2.
Proof.
  pmt_cases;
    repeat first [apply List.Forall_nil | apply List.Forall_cons
                 | reflexivity | apply handler_event].
Qed.

(** A failed transform leaves the file system as it was. *)
Lemma process_motion_tsv_failure (E : env) (fs : gmap string node) (inp out : string) :
  (process_motion_tsv E fs inp out).2 = false ->
  (process_motion_tsv E fs inp out).1.1 = fs.
Proof. pmt_cases; intros; try reflexivity; discriminate. Qed.

Lemma write_text_inv (E : env) (fs fs' : gmap string node) (p text : string) :
  write_text E fs p text = Ok fs' ->
  fs' = <[p := File text]> fs /\ can_write E p = true /\ fs !! p <> Some Dir.
Proof.
  unfold write_text. intros H.
  destruct (fs !! p) as [[|c]|] eqn:Hp; try discriminate;
    destruct (can_write E p); simplify_eq; repeat split; congruence.
Qed.

(** A successful transform adds or replaces exactly the output path. *)
Lemma process_motion_tsv_success (E : env) (fs : gmap string node) (inp out : string) :
  (process_motion_tsv E fs inp out).2 = true ->
  exists text, (process_motion_tsv E fs inp out).1.1 = <[out := File text]> fs.
Proof.
  pmt_cases; intros; try discriminate.
  apply write_text_inv in Hwrite as (-> & _). eauto.
Qed.

Lemma open_read_file (fs : gmap string node) (p text : string) :
  fs !! p = Some (File text) -> open_read fs p = Ok text.
Proof. unfold open_read. intros ->. reflexivity. Qed.



Lemma set_columns_mismatch {L} (labels : list string) (df : Pd.DataFrame L) :
  length labels <> length (Pd.columns df) ->
  Pd.set_columns labels df = Raise (OtherException "ValueError" "Length mismatch").
Proof. unfold Pd.set_columns. intros H. rewrite decide_False by exact H. reflexivity. Qed.

Lemma read_csv_header_only (sep h text : string) :
  Py.lines text = [h] ->
  Pd.read_csv sep 1 text = Raise (EmptyDataError "No columns to parse from file").
Proof. unfold Pd.read_csv. intros ->. reflexivity. Qed.

(** C9.  A file that consists of a header line and nothing else makes
    [process_motion_tsv] fail through the empty-data handler: it returns
    [False], logs that the file is empty, and the file system is unchanged,
    so no output file is created. *)
Theorem header_only_is_empty_data (E : env) (fs : gmap string node)
    (inp out text h : string) :
  fs !! inp = Some (File text) ->
  Py.lines text = [h] ->
  process_motion_tsv E fs inp out =
    (fs, [DetectedColumns (headers_of text); FileEmpty inp], false).
Proof.
  intros Hin Hlines. rewrite process_motion_tsv_unfold.
  rewrite (open_read_file _ _ _ Hin). cbv zeta.
  rewrite (read_csv_header_only _ _ _ Hlines). reflexivity.
Qed.

Lemma header_only_is_empty_data_witness :
  process_motion_tsv sample_env (sample_fs sample_header_only) "in.tsv" "out.tsv" =
    (sample_fs sample_header_only,
     [DetectedColumns (headers_of sample_header_only); FileEmpty "in.tsv"], false).
Proof.
  apply (header_only_is_empty_data sample_env (sample_fs sample_header_only)
           "in.tsv" "out.tsv" sample_header_only
           (Py.join Pd.TAB (required_cols ++ ["framewise_displacement"])));
    reflexivity.
Defined.

(** C10.  When the body parses into a frame whose number of columns differs
    from the number of names in the tab-split header line, assigning the
    header names raises; the generic handler reports the message, the
    function returns [False], and the file system is unchanged, so no output
    file is created. *)
Theorem width_mismatch_fails (E : env) (fs : gmap string node)
    (inp out text : string) (df0 : Pd.DataFrame nat) :
  fs !! inp = Some (File text) ->
  Pd.read_csv "   " 1 text = Ok df0 ->
  length (headers_of text) <> length (Pd.columns df0) ->
  process_motion_tsv E fs inp out =
    (fs, [DetectedColumns (headers_of text); ErrorProcessing "Length mismatch"], false).
Proof.
  intros Hin Hread Hlen. rewrite process_motion_tsv_unfold.
  rewrite (open_read_file _ _ _ Hin). cbv zeta. rewrite Hread.
  rewrite (set_columns_mismatch _ _ Hlen). reflexivity.
Qed.

Lemma width_mismatch_fails_witness :
  process_motion_tsv sample_env (sample_fs sample_narrow_header) "in.tsv" "out.tsv" =
    (sample_fs sample_narrow_header,
     [DetectedColumns (headers_of sample_narrow_header);
      ErrorProcessing "Length mismatch"], false).
Proof.
  eapply (width_mismatch_fails sample_env (sample_fs sample_narrow_header)
            "in.tsv" "out.tsv" sample_narrow_header).
  - reflexivity.
  - vm_compute. reflexivity.
  - vm_compute. discriminate.
Defined.




(** ** Column selection *)















(** ** The body delimiter *)

Lemma rev_app_app (a b s : string) : String.rev_app a b +:+ s = String.rev_app a (b +:+ s).
Proof. revert b. induction a as [|c a IH]; intros b; [reflexivity|]. simpl. rewrite IH. reflexivity. Qed.

Lemma rev_cons_app (c : ascii) (cur s : string) :
  String.rev (String c cur) +:+ s = String.rev cur +:+ String c s.
Proof. unfold String.rev. simpl. rewrite !rev_app_app. reflexivity. Qed.

Lemma split_go_nonempty (sep : string) (k : nat) (cur s : string) :
  Py.split_go sep k cur s <> [].
Proof.
  revert k cur. induction s as [|c s IH]; intros k cur; simpl; [discriminate|].
  destruct k; [|apply IH]. destruct (Py.startswith sep (String c s)); [discriminate|apply IH].
Qed.




Lemma split_go_no_match (sep cur s : string) :
  Py.contains sep s = false -> Py.split_go sep 0 cur s = [String.rev cur +:+ s].
Proof.
  revert cur. induction s as [|c s IH]; intros cur H.
  - simpl. rewrite str_app_nil_r. reflexivity.
  - cbn [Py.contains] in H. apply orb_false_iff in H as [Hm Hs].
    cbn [Py.split_go]. rewrite Hm, IH by exact Hs. rewrite rev_cons_app. reflexivity.
Qed.

(** A text without the separator is one field. *)
Lemma split_no_match (sep s : string) : Py.contains sep s = false -> Py.split sep s = [s].
Proof. intros H. unfold Py.split. rewrite split_go_no_match by exact H. reflexivity. Qed.






(** ** The pattern loop and the drivers *)

Lemma runs_of_log_app (l1 l2 : list event) :
  runs_of_log (l1 ++ l2) = runs_of_log l1 ++ runs_of_log l2.
Proof. apply omap_app. Qed.

Lemma inputs_checked_app (l1 l2 : list event) :
  inputs_checked (l1 ++ l2) = inputs_checked l1 ++ inputs_checked l2.
Proof. apply omap_app. Qed.

Lemma subjects_of_log_app (l1 l2 : list event) :
  subjects_of_log (l1 ++ l2) = subjects_of_log l1 ++ subjects_of_log l2.
Proof. apply omap_app. Qed.

Lemma level0_quiet (log : list event) :
  Forall (fun e => level e = 0%nat) log ->
  runs_of_log log = [] /\ inputs_checked log = [] /\ subjects_of_log log = [].
Proof.
  induction 1 as [|e log He _ (IH1 & IH2 & IH3)]; [auto|].
  unfold runs_of_log, inputs_checked, subjects_of_log in *.
  destruct e; try discriminate He; simpl; auto.
Qed.

Lemma process_pattern_spec (E : env) (func_dir base run new_run : string)
    (fs : gmap string node) (log : list event) (n : nat) (pat : pattern) :
  exists extra n',
    process_pattern E func_dir base run new_run (fs, log, n) pat =
      (job_step E fs (path_join func_dir (input_filename base run pat),
                      path_join func_dir (output_filename base new_run pat)),
       log ++ extra, n') /\
    runs_of_log extra = [] /\
    inputs_checked extra = [input_filename base run pat] /\
    subjects_of_log extra = [].
Proof.
  unfold process_pattern, job_step. cbn [fst snd].
  destruct (path_exists fs (path_join func_dir (input_filename base run pat))).
  2:{ eexists _, _. rewrite <- app_assoc. split; [reflexivity|]. cbn. auto. }
  cbn [negb].
  destruct (path_exists fs (path_join func_dir (output_filename base new_run pat))).
  { eexists _, _. rewrite <- app_assoc. split; [reflexivity|]. cbn. auto. }
  pose proof (process_motion_tsv_events E fs
                (path_join func_dir (input_filename base run pat))
                (path_join func_dir (output_filename base new_run pat))) as Hev.
  destruct (process_motion_tsv E fs _ _) as [[fs' l] ok]. cbn [fst snd] in *.
  destruct (level0_quiet l Hev) as (Hr & Hi & Hs).
  destruct ok; eexists _, _; rewrite <- ?app_assoc;
    (split; [reflexivity|]);
    rewrite ?runs_of_log_app, ?inputs_checked_app, ?subjects_of_log_app;
    cbn; rewrite ?runs_of_log_app, ?inputs_checked_app, ?subjects_of_log_app, Hr, Hi, Hs;
    auto.
Qed.

Lemma process_patterns_spec (E : env) (fs : gmap string node)
    (func_dir subject session task run : string) :
  exists log,
    process_patterns E fs func_dir subject session task run =
      (foldl (job_step E) fs (jobs_of func_dir subject session task run), log) /\
    runs_of_log log = [run] /\
    inputs_checked log =
      map (input_filename (subject +:+ "_" +:+ session +:+ "_task-" +:+ task) run)
        file_patterns /\
    subjects_of_log log = [].
Proof.
  unfold process_patterns, jobs_of, file_patterns. cbn [foldl map].
  set (base := subject +:+ "_" +:+ session +:+ "_task-" +:+ task).
  destruct (process_pattern_spec E func_dir base run (depad run) fs
              [ProcessingRun subject session task run] 0
              (mkPattern "_desc-filteredincludingFD_motion.tsv"
                 "_desc-filtered_motion.tsv" "Filtered including FD -> Filtered"))
    as (x1 & n1 & -> & Hr1 & Hi1 & Hs1).
  destruct (process_pattern_spec E func_dir base run (depad run)
              (job_step E fs
                 (path_join func_dir (input_filename base run
                    (mkPattern "_desc-filteredincludingFD_motion.tsv"
                       "_desc-filtered_motion.tsv" "Filtered including FD -> Filtered")),
                  path_join func_dir (output_filename base (depad run)
                    (mkPattern "_desc-filteredincludingFD_motion.tsv"
                       "_desc-filtered_motion.tsv" "Filtered including FD -> Filtered"))))
              ([ProcessingRun subject session task run] ++ x1) n1
              (mkPattern "_desc-includingFD_motion.tsv" "_motion.tsv"
                 "Including FD -> Motion"))
    as (x2 & n2 & -> & Hr2 & Hi2 & Hs2).
  eexists. split; [reflexivity|].
  rewrite !runs_of_log_app, !inputs_checked_app, !subjects_of_log_app, Hr1, Hr2, Hi1, Hi2, Hs1, Hs2.
  destruct (0 <? n2)%nat; cbn; auto.
Qed.

Lemma runs_loop_spec (E : env) (func_dir subject session : string)
    (runs : list string) (fs : gmap string node) (log : list event) :
  exists log',
    foldl (fun '(fs, log) run_str =>
             let '(fs', l) := Run.process_run E fs func_dir subject session "rest" run_str in
             (fs', log ++ l)) (fs, log) runs =
      (foldl (job_step E) fs
         (flat_map (jobs_of func_dir subject session "rest") runs), log ++ log') /\
    runs_of_log log' = runs /\
    inputs_checked log' =
      flat_map (fun run =>
                  map (input_filename (subject +:+ "_" +:+ session +:+ "_task-" +:+ "rest") run)
                    file_patterns) runs /\
    subjects_of_log log' = [].
Proof.
  revert fs log. induction runs as [|run runs IH]; intros fs log.
  - exists []. rewrite app_nil_r. auto.
  - cbn [foldl flat_map]. unfold Run.process_run at 2.
    destruct (process_patterns_spec E fs func_dir subject session "rest" run)
      as (l & -> & Hr & Hi & Hs).
    destruct (IH (foldl (job_step E) fs (jobs_of func_dir subject session "rest" run))
                (log ++ l)) as (log' & -> & Hr' & Hi' & Hs').
    exists (l ++ log'). rewrite foldl_app, app_assoc.
    split; [reflexivity|].
    rewrite runs_of_log_app, inputs_checked_app, subjects_of_log_app, Hr, Hr', Hi, Hi', Hs, Hs'.
    auto.
Qed.

(** The session function of [run.py] when the image loads. *)
Lemma process_subject_session_loaded (E : env) (fs : gmap string node)
    (bids_dir subject session : string) (n0 : Z) (shape : list Z) :
  let func_dir := func_dir_of bids_dir subject session in
  path_exists fs func_dir = true ->
  path_exists fs (Run.dtseries_of func_dir subject session) = true ->
  Run.load_shape E fs (Run.dtseries_of func_dir subject session) = Ok (n0 :: shape) ->
  exists log',
    Run.process_subject_session E fs bids_dir subject session =
      (foldl (job_step E) fs
         (flat_map (jobs_of func_dir subject session "rest") (Run.run_ids (n0 / 383))),
       [Timepoints n0; RestRuns (n0 / 383)] ++ log', Ok tt) /\
    runs_of_log log' = Run.run_ids (n0 / 383) /\
    inputs_checked log' =
      flat_map (fun run =>
                  map (input_filename (subject +:+ "_" +:+ session +:+ "_task-" +:+ "rest") run)
                    file_patterns) (Run.run_ids (n0 / 383)) /\
    subjects_of_log log' = [].
Proof.
  intros func_dir Hdir Hdt Hshape. unfold Run.process_subject_session.
  fold func_dir. rewrite Hdir, Hdt, Hshape. cbn [negb].
  destruct (runs_loop_spec E func_dir subject session (Run.run_ids (n0 / 383)) fs
              [Timepoints n0; RestRuns (n0 / 383)]) as (log' & -> & H).
  exists log'. split; [reflexivity|exact H].
Qed.


Lemma length_run_ids (n : Z) : length (Run.run_ids n) = Z.to_nat n.
Proof. unfold Run.run_ids. rewrite length_map, length_seqZ. reflexivity. Qed.

Lemma lookup_run_ids (n : Z) (k : nat) :
  (k < Z.to_nat n)%nat ->
  Run.run_ids n !! k = Some ("run-" +:+ Py.fmt_02d (Z.of_nat k + 1)).
Proof.
  intros Hk. unfold Run.run_ids. rewrite list_lookup_fmap.
  rewrite lookup_seqZ_lt by lia. cbn. do 3 f_equal. lia.
Qed.

(** C6.  In the batch mode, when the companion dtseries image loads with a
    first axis of [n0] samples, the session function logs the run count
    [n0 // 383] and hands to the pattern loop exactly the runs
    [run-01 .. run-{count:02d}], in order: [count] of them, the k-th being
    [run-] followed by k written with at least two digits.  The quotient is
    the floor: 383 * count <= n0 < 383 * (count + 1).  With 766 samples the
    runs are [run-01] and [run-02]; with 382 samples there is none. *)
Theorem derived_run_enumeration (E : env) (fs : gmap string node)
    (bids_dir subject session : string) (n0 : Z) (shape : list Z) :
  let func_dir := func_dir_of bids_dir subject session in
  path_exists fs func_dir = true ->
  path_exists fs (Run.dtseries_of func_dir subject session) = true ->
  Run.load_shape E fs (Run.dtseries_of func_dir subject session) = Ok (n0 :: shape) ->
  let r := Run.process_subject_session E fs bids_dir subject session in
  let run_count := (n0 / 383)%Z in
  r.2 = Ok tt /\
  RestRuns run_count ∈ r.1.2 /\
  runs_of_log r.1.2 = Run.run_ids run_count /\
  (383 * run_count <= n0 < 383 * (run_count + 1))%Z /\
  length (Run.run_ids run_count) = Z.to_nat run_count /\
  (forall k, (k < Z.to_nat run_count)%nat ->
             Run.run_ids run_count !! k = Some ("run-" +:+ Py.fmt_02d (Z.of_nat k + 1))) /\
  Run.run_ids (766 / 383) = ["run-01"; "run-02"] /\
  Run.run_ids (382 / 383) = [].
Proof.
  intros func_dir Hdir Hdt Hshape. cbv zeta.
  destruct (process_subject_session_loaded E fs bids_dir subject session n0 shape
              Hdir Hdt Hshape) as (log' & -> & Hr & _).
  cbn [fst snd].
  split; [reflexivity|]. split; [set_solver|].
  split; [rewrite runs_of_log_app, Hr; reflexivity|].
  split; [pose proof (Z.div_mod n0 383); pose proof (Z.mod_pos_bound n0 383); lia|].
  split; [apply length_run_ids|]. split; [apply lookup_run_ids|].
  split; reflexivity.
Qed.

Lemma derived_run_enumeration_witness :
  let r := Run.process_subject_session sample_env sample_bids_fs "root" "sub-01" "ses-01" in
  let run_count := (766 / 383)%Z in
  r.2 = Ok tt /\
  RestRuns run_count ∈ r.1.2 /\
  runs_of_log r.1.2 = Run.run_ids run_count /\
  (383 * run_count <= 766 < 383 * (run_count + 1))%Z /\
  length (Run.run_ids run_count) = Z.to_nat run_count /\
  (forall k, (k < Z.to_nat run_count)%nat ->
             Run.run_ids run_count !! k = Some ("run-" +:+ Py.fmt_02d (Z.of_nat k + 1))) /\
  Run.run_ids (766 / 383) = ["run-01"; "run-02"] /\
  Run.run_ids (382 / 383) = [].
Proof.
  apply (derived_run_enumeration sample_env sample_bids_fs "root" "sub-01" "ses-01" 766 []);
    vm_compute; reflexivity.
Defined.






(** ** Pattern iterations on the file system *)


Lemma path_exists_None (fs : gmap string node) (p : string) :
  path_exists fs p = false <-> fs !! p = None.
Proof. unfold path_exists. destruct (fs !! p); split; congruence. Qed.

(** An iteration changes nothing or creates the output file. *)
Lemma job_step_cases (E : env) (fs : gmap string node) (job : string * string) :
  job_step E fs job = fs \/
  (fs !! job.2 = None /\ exists text, job_step E fs job = <[job.2 := File text]> fs).
Proof.
  unfold job_step. destruct (path_exists fs job.1); [|left; reflexivity]. cbn [negb].
  destruct (path_exists fs job.2) eqn:Hout; [left; reflexivity|].
  destruct (process_motion_tsv E fs job.1 job.2).2 eqn:Hok.
  - right. split; [apply path_exists_None, Hout|].
    apply process_motion_tsv_success, Hok.
  - left. apply process_motion_tsv_failure, Hok.
Qed.








Lemma path_join_inj (d a b : string) : path_join d a = path_join d b -> a = b.
Proof.
  unfold path_join. intros H.
  apply (inj (String.app d)) in H. apply (inj (String.app "/")) in H. exact H.
Qed.









Lemma has_char_app (c : ascii) (a b : string) :
  Py.has_char c (a +:+ b) = Py.has_char c a || Py.has_char c b.
Proof.
  induction a as [|x a IH]; [reflexivity|]. rewrite str_app_cons. simpl.
  destruct (decide (x = c)); [reflexivity|exact IH].
Qed.

Lemma replace_go_has_char (c : ascii) (old new : string) (k : nat) (s : string) :
  Py.has_char c new = false -> Py.has_char c s = false ->
  Py.has_char c (Py.replace_go old new k s) = false.
Proof.
  intros Hnew. revert k. induction s as [|x s IH]; intros k Hs; [reflexivity|].
  simpl in Hs. destruct (decide (x = c)) as [|Hx]; [discriminate|].
  destruct k as [|k]; cbn [Py.replace_go]; [|apply IH, Hs].
  destruct (Py.startswith old (String x s)).
  - rewrite has_char_app, Hnew. apply IH, Hs.
  - simpl. rewrite decide_False by exact Hx. apply IH, Hs.
Qed.

Lemma string_of_uint_digits (c : ascii) (u : Decimal.uint) :
  Py.has_char c "0123456789" = false ->
  Py.has_char c (NilEmpty.string_of_uint u) = false.
Proof.
  intros H. induction u; simpl; [reflexivity|..];
    simpl in H; repeat (destruct (decide _) in H; [discriminate|]);
    rewrite decide_False by congruence; assumption.
Qed.

Lemma fmt_02d_digits (c : ascii) (n : Z) :
  Py.has_char c "0123456789" = false -> Py.has_char c (Py.fmt_02d n) = false.
Proof.
  intros Hc. unfold Py.fmt_02d.
  pose proof (string_of_uint_digits c (N.to_uint (Z.to_N n)) Hc) as H.
  destruct (NilEmpty.string_of_uint _) as [|x [|x' d]]; [| |exact H].
  - simpl in *. repeat (destruct (decide _) in Hc; [discriminate|]).
    rewrite !decide_False by congruence. reflexivity.
  - change (Py.has_char c (String "0" (String x "")) = false). simpl in *.
    repeat (destruct (decide _) in Hc; [discriminate|]).
    rewrite (decide_False (P := "0"%char = c)) by congruence. exact H.
Qed.

Lemma run_ids_chars (c : ascii) (n : Z) (run : string) :
  Py.has_char c "run-0123456789" = false ->
  run ∈ Run.run_ids n -> Py.has_char c run = false.
Proof.
  unfold Run.run_ids. intros Hc H. apply list_elem_of_fmap in H as (k & -> & _).
  change "run-0123456789" with ("run-" +:+ "0123456789") in Hc.
  rewrite has_char_app in Hc. apply orb_false_iff in Hc as [Hc1 Hc2].
  rewrite has_char_app, Hc1, fmt_02d_digits by exact Hc2. reflexivity.
Qed.

Lemma run_ids_no_underscore (n : Z) (run : string) :
  run ∈ Run.run_ids n -> Py.has_char "_" run = false.
Proof. apply run_ids_chars. reflexivity. Qed.

Lemma depad_chars (c : ascii) (run : string) :
  Py.has_char c "run-" = false ->
  Py.has_char c run = false -> Py.has_char c (depad run) = false.
Proof. intros Hc H. apply replace_go_has_char; assumption. Qed.

Lemma depad_no_underscore (run : string) :
  Py.has_char "_" run = false -> Py.has_char "_" (depad run) = false.
Proof. apply depad_chars. reflexivity. Qed.

(** Two texts cut at their first underscore are equal piece by piece. *)
Lemma first_underscore_unique (a b x y : string) :
  Py.has_char "_" a = false -> Py.has_char "_" b = false ->
  a +:+ String "_" x = b +:+ String "_" y -> a = b /\ x = y.
Proof.
  revert b. induction a as [|c a IH]; intros [|c' b] Ha Hb Heq;
    rewrite ?str_app_cons in Heq; simpl in Ha, Hb.
  - change (String "_" x = String "_" y) in Heq. simplify_eq. auto.
  - change (String "_" x = String c' (b +:+ String "_" y)) in Heq. simplify_eq.
  - change (String c (a +:+ String "_" x) = String "_" y) in Heq. simplify_eq.
  - simplify_eq. destruct (decide (c' = "_"%char)); [discriminate|].
    destruct (IH b Ha Hb) as [-> ->]; [assumption|auto].
Qed.





(** ** The batch driver on the file system *)

Lemma str_app_assoc (a b c : string) : (a +:+ b) +:+ c = a +:+ (b +:+ c).
Proof. induction a as [|x a IH]; [reflexivity|]. rewrite !str_app_cons, IH. reflexivity. Qed.

















Lemma process_subject_session_fs (E : env) (fs : gmap string node)
    (bids_dir subject session : string) :
  (Run.process_subject_session E fs bids_dir subject session).1.1 =
    foldl (job_step E) fs (session_jobs E fs bids_dir subject session).
Proof.
  unfold session_jobs.
  destruct (path_exists fs (func_dir_of bids_dir subject session)) eqn:Hdir.
  2:{ unfold Run.process_subject_session. rewrite Hdir. reflexivity. }
  destruct (path_exists fs (Run.dtseries_of (func_dir_of bids_dir subject session)
                              subject session)) eqn:Hdt.
  2:{ unfold Run.process_subject_session. rewrite Hdir, Hdt. reflexivity. }
  cbn [andb].
  destruct (Run.load_shape E fs _) as [[|n0 shape]|e] eqn:Hshape.
  1,3: unfold Run.process_subject_session; rewrite Hdir, Hdt, Hshape; reflexivity.
  destruct (process_subject_session_loaded E fs bids_dir subject session n0 shape
              Hdir Hdt Hshape) as (log & -> & _).
  reflexivity.
Qed.

Lemma process_pair_fs (E : env) (bids_dir : string) (session_labels : list string)
    (fs : gmap string node) (log : list event) (pair : string * string) :
  (Run.process_pair E bids_dir session_labels (fs, log) pair).1 =
    foldl (job_step E) fs (pair_jobs E fs bids_dir session_labels pair).
Proof.
  destruct pair as [p sl]. unfold Run.process_pair, pair_jobs. cbn [fst snd].
  destruct (path_exists fs (path_join bids_dir ("sub-" +:+ p))); [|reflexivity].
  cbn [negb]. destruct session_labels as [|s0 ss]; [reflexivity|].
  rewrite <- process_subject_session_fs.
  destruct (Run.process_subject_session E fs bids_dir _ _) as [[fs' l] [[]|e]]; reflexivity.
Qed.


Lemma pair_jobs_elem (E : env) (fs : gmap string node) (bids_dir : string)
    (session_labels : list string) (pair job : string * string) :
  job ∈ pair_jobs E fs bids_dir session_labels pair ->
  exists n run,
    run ∈ Run.run_ids n /\
    job ∈ jobs_of (func_dir_of bids_dir ("sub-" +:+ pair.1) ("ses-" +:+ pair.2))
            ("sub-" +:+ pair.1) ("ses-" +:+ pair.2) "rest" run.
Proof.
  unfold pair_jobs, session_jobs.
  destruct (path_exists fs (path_join _ _)); [|intros H; apply elem_of_nil in H; contradiction].
  destruct session_labels; [intros H; apply elem_of_nil in H; contradiction|].
  destruct (_ && _); [|intros H; apply elem_of_nil in H; contradiction].
  destruct (Run.load_shape E fs _) as [[|n0 shape]|e];
    try (intros H; apply elem_of_nil in H; contradiction).
  intros H. apply list_elem_of_In, in_flat_map in H as (run & Hrun & Hj).
  exists (n0 / 383)%Z, run. split; apply list_elem_of_In; assumption.
Qed.










(** * Further properties of the code *)

(** ** The table transform: what a verdict means *)








(** ** The table transform: bodies that do not parse *)

Lemma blank_lines_no_rows (sep : string) (ls : list string) :
  Forall (fun l => Py.strip l = "") ls ->
  filter (fun r => Pd.nonblank r = true) (map (Pd.parse_line sep) ls) = [].
Proof.
  induction 1 as [|l ls Hl _ IH]; [reflexivity|].
  assert (Hnb : Pd.nonblank (Pd.parse_line sep l) = false).
  { unfold Pd.parse_line. rewrite Hl. reflexivity. }
  cbn [map]. rewrite filter_cons, decide_False by (rewrite Hnb; discriminate).
  exact IH.
Qed.

(** X4.  When every line after the first is blank (in particular when the
    file is empty, or holds a header line only), [process_motion_tsv] ends
    in the empty-data handler: it returns [False], logs the header names it
    detected and that the file is empty, and writes nothing. *)
Theorem blank_body_is_empty_data (E : env) (fs : gmap string node)
    (inp out text : string) :
  fs !! inp = Some (File text) ->
  Forall (fun l => Py.strip l = "") (drop 1 (Py.lines text)) ->
  process_motion_tsv E fs inp out =
    (fs, [DetectedColumns (headers_of text); FileEmpty inp], false).
Proof.
  intros Hin Hblank. rewrite process_motion_tsv_unfold, (open_read_file _ _ _ Hin).
  cbv zeta. unfold Pd.read_csv. rewrite (blank_lines_no_rows _ _ Hblank). reflexivity.
Qed.

Lemma blank_body_is_empty_data_witness :
  process_motion_tsv sample_env (sample_fs "") "in.tsv" "out.tsv" =
    (sample_fs "", [DetectedColumns (headers_of ""); FileEmpty "in.tsv"], false).
Proof.
  apply (blank_body_is_empty_data sample_env (sample_fs "") "in.tsv" "out.tsv" "").
  - reflexivity.
  - constructor.
Defined.

(** X5.  When some non-blank body line has more fields than the first
    non-blank body line, the body does not parse: [process_motion_tsv]
    returns [False] through the generic handler and writes nothing. *)
Theorem ragged_body_fails (E : env) (fs : gmap string node)
    (inp out text : string) (r0 : list string) (rest : list (list string)) :
  fs !! inp = Some (File text) ->
  filter (fun r => Pd.nonblank r = true)
    (map (Pd.parse_line "   ") (drop 1 (Py.lines text))) = r0 :: rest ->
  Exists (fun r => (length r0 < length r)%nat) rest ->
  exists msg,
    process_motion_tsv E fs inp out =
      (fs, [DetectedColumns (headers_of text); ErrorProcessing msg], false).
Proof.
  intros Hin Hrows Hlong. rewrite process_motion_tsv_unfold, (open_read_file _ _ _ Hin).
  cbv zeta. unfold Pd.read_csv. rewrite Hrows.
  assert (Hall : forallb (fun r => Nat.leb (length r) (length r0)) (r0 :: rest) = false).
  { apply not_true_is_false. intros Hall. rewrite forallb_forall in Hall.
    apply Exists_exists in Hlong as (r & Hr & Hlt).
    specialize (Hall r (or_intror (proj1 (list_elem_of_In _ _) Hr))).
    apply Nat.leb_le in Hall. lia. }
  rewrite Hall. eexists. reflexivity.
Qed.

Lemma ragged_body_fails_witness :
  exists msg,
    process_motion_tsv sample_env
      (sample_fs ("a" +:+ Pd.LF +:+ "1" +:+ Pd.LF +:+ "1   2" +:+ Pd.LF))
      "in.tsv" "out.tsv" =
      (sample_fs ("a" +:+ Pd.LF +:+ "1" +:+ Pd.LF +:+ "1   2" +:+ Pd.LF),
       [DetectedColumns (headers_of ("a" +:+ Pd.LF +:+ "1" +:+ Pd.LF +:+ "1   2" +:+ Pd.LF));
        ErrorProcessing msg], false).
Proof.
  apply (ragged_body_fails sample_env
           (sample_fs ("a" +:+ Pd.LF +:+ "1" +:+ Pd.LF +:+ "1   2" +:+ Pd.LF))
           "in.tsv" "out.tsv" _ ["1"] [["1"; "2"]]).
  - reflexivity.
  - vm_compute. reflexivity.
  - constructor. cbn. lia.
Defined.

(** ** The table transform: labels that repeat *)





(** ** Nothing is overwritten or removed *)

Lemma extends_with_refl (Q : string -> Prop) (fs : gmap string node) :
  extends_with Q fs fs.
Proof. intros p. left. reflexivity. Qed.

Lemma extends_with_trans (Q : string -> Prop) (fs fs1 fs2 : gmap string node) :
  extends_with Q fs fs1 -> extends_with Q fs1 fs2 -> extends_with Q fs fs2.
Proof.
  intros H1 H2 p.
  destruct (H1 p) as [E1|(N1 & [t1 T1] & Q1)], (H2 p) as [E2|(N2 & [t2 T2] & Q2)].
  - left. congruence.
  - right. split; [congruence|]. split; [eauto|exact Q2].
  - right. split; [exact N1|]. split; [exists t1; congruence|exact Q1].
  - congruence.
Qed.

Lemma extends_with_mono (Q Q' : string -> Prop) (fs fs' : gmap string node) :
  (forall p, Q p -> Q' p) -> extends_with Q fs fs' -> extends_with Q' fs fs'.
Proof.
  intros HQ H p. destruct (H p) as [E1|(N1 & T1 & Q1)]; [left; exact E1|].
  right. auto.
Qed.

Lemma job_step_extends (E : env) (fs : gmap string node) (job : string * string) :
  extends_with (fun p => p = job.2) fs (job_step E fs job).
Proof.
  intros p. destruct (job_step_cases E fs job) as [->|(Hnone & text & ->)].
  - left. reflexivity.
  - destruct (decide (p = job.2)) as [->|Hne].
    + right. split; [exact Hnone|]. split; [|reflexivity].
      exists text. apply lookup_insert_eq.
    + left. apply lookup_insert_ne. congruence.
Qed.

Lemma foldl_job_step_extends (E : env) (jobs : list (string * string))
    (fs : gmap string node) :
  extends_with (fun p => exists job, job ∈ jobs /\ p = job.2) fs (foldl (job_step E) fs jobs).
Proof.
  revert fs. induction jobs as [|job jobs IH]; intros fs; [apply extends_with_refl|].
  cbn [foldl]. eapply extends_with_trans.
  - eapply extends_with_mono; [|apply (job_step_extends E fs job)].
    intros p ->. exists job. split; [left|reflexivity].
  - eapply extends_with_mono; [|apply IH].
    intros p (job' & Hin & ->). exists job'. split; [right; exact Hin|reflexivity].
Qed.

Lemma process_pairs_loop_extends (E : env) (bids_dir : string) (session_labels : list string)
    (pairs : list (string * string)) (fs : gmap string node) (log : list event) :
  extends_with
    (fun p => exists pair n run job,
       pair ∈ pairs /\ run ∈ Run.run_ids n /\
       job ∈ jobs_of (func_dir_of bids_dir ("sub-" +:+ pair.1) ("ses-" +:+ pair.2))
               ("sub-" +:+ pair.1) ("ses-" +:+ pair.2) "rest" run /\
       p = job.2)
    fs (foldl (Run.process_pair E bids_dir session_labels) (fs, log) pairs).1.
Proof.
  revert fs log. induction pairs as [|pair pairs IH]; intros fs log;
    [apply extends_with_refl|].
  cbn [foldl].
  pose proof (process_pair_fs E bids_dir session_labels fs log pair) as Hfs.
  destruct (Run.process_pair E bids_dir session_labels (fs, log) pair) as [fs1 log1].
  cbn [fst] in Hfs. subst fs1. eapply extends_with_trans.
  - eapply extends_with_mono; [|apply foldl_job_step_extends].
    intros p (job & Hin & ->).
    destruct (pair_jobs_elem E fs bids_dir session_labels pair job Hin)
      as (n & run & Hrun & Hjob).
    exists pair, n, run, job. split; [left|]. split; [exact Hrun|]. split; [exact Hjob|reflexivity].
  - eapply extends_with_mono; [|apply IH].
    intros p (pair' & n & run & job & Hin & Hrest).
    exists pair', n, run, job. split; [right; exact Hin|exact Hrest].
Qed.


(** X8.  [run.py], from its entry point and at either analysis level: a
    run removes nothing and overwrites nothing.  A path that changes was
    absent and now holds a regular file, and it is an output path of the
    pattern loop for some participant, session and zero-padded run number
    under the dataset directory, with the task fixed to [rest]. *)
Theorem batch_only_creates_outputs (E : env) (v : validator_state) (fs : gmap string node)
    (bids_dir analysis_level : string)
    (participant_label session_label : option (list string)) (skip_bids_validator : bool) :
  extends_with
    (fun p => exists participant session n run job,
       run ∈ Run.run_ids n /\
       job ∈ jobs_of (func_dir_of bids_dir ("sub-" +:+ participant) ("ses-" +:+ session))
               ("sub-" +:+ participant) ("ses-" +:+ session) "rest" run /\
       p = job.2)
    fs (Run.main E v fs bids_dir analysis_level participant_label session_label
          skip_bids_validator).1.1.
Proof.
  assert (Hpairs : forall pls sls,
            extends_with
              (fun p => exists participant session n run job,
                 run ∈ Run.run_ids n /\
                 job ∈ jobs_of (func_dir_of bids_dir ("sub-" +:+ participant) ("ses-" +:+ session))
                         ("sub-" +:+ participant) ("ses-" +:+ session) "rest" run /\
                 p = job.2)
              fs (Run.process_pairs E fs bids_dir pls sls).1).
  { intros pls sls. unfold Run.process_pairs.
    eapply extends_with_mono; [|apply process_pairs_loop_extends].
    intros p (pair & n & run & job & _ & Hrest). exists pair.1, pair.2, n, run, job. exact Hrest. }
  unfold Run.main.
  destruct (path_exists fs bids_dir); cbn [negb fst snd]; [|apply extends_with_refl].
  destruct (if negb skip_bids_validator then Run.run_bids_validator v else ([], true))
    as [vlog valid].
  destruct valid; cbn [negb fst snd]; [|apply extends_with_refl].
  destruct analysis_level as [|c lvl]; [apply extends_with_refl|].
  unfold Run.run_participant_level.
  destruct (decide (String c lvl = "group")) as [_|_].
  - specialize (Hpairs (map (Py.replace "sub-" "") (get_subjects E fs bids_dir))
                  (Run.discover_sessions fs bids_dir
                     (map (Py.replace "sub-" "") (get_subjects E fs bids_dir)))).
    destruct (Run.process_pairs _ _ _ _ _) as [fs' l]. exact Hpairs.
  - destruct participant_label as [[|pl pls]|]; try apply extends_with_refl;
      destruct session_label as [[|sl sls]|]; try apply extends_with_refl.
    specialize (Hpairs (pl :: pls) (sl :: sls)).
    destruct (Run.process_pairs _ _ _ _ _) as [fs' l]. exact Hpairs.
Qed.

(** ** The summaries count the files created *)












(** ** Run numbers in output names *)

Lemma to_uint_normal (n : N) :
  N.to_uint n = Decimal.D0 Decimal.Nil \/
  (N.to_uint n <> Decimal.Nil /\ forall d, N.to_uint n <> Decimal.D0 d).
Proof.
  pose proof (DecimalN.Unsigned.to_of (N.to_uint n)) as H.
  rewrite DecimalN.Unsigned.of_to in H. rewrite H. unfold Decimal.unorm.
  pose proof (DecimalFacts.nzhead_nonzero (N.to_uint n)) as Hnz.
  destruct (Decimal.nzhead (N.to_uint n)) as [|d|d|d|d|d|d|d|d|d|d];
    [left; reflexivity|exfalso; exact (Hnz d eq_refl)|..];
    right; (split; [discriminate|intros d'; discriminate]).
Qed.

Lemma decimal_shape (k : Z) :
  decimal k = "0" \/ exists c s, decimal k = String c s /\ c <> "0"%char.
Proof.
  unfold decimal. destruct (to_uint_normal (Z.to_N k)) as [->|[Hnil Hzero]];
    [left; reflexivity|right].
  destruct (N.to_uint (Z.to_N k)) as [|d|d|d|d|d|d|d|d|d|d];
    [contradiction|exfalso; exact (Hzero d eq_refl)|..];
    cbn [NilEmpty.string_of_uint]; eexists _, _; (split; [reflexivity|discriminate]).
Qed.

Lemma decimal_inj (k k' : Z) :
  (0 <= k)%Z -> (0 <= k')%Z -> decimal k = decimal k' -> k = k'.
Proof.
  intros Hk Hk' H. unfold decimal in H.
  apply (f_equal NilEmpty.uint_of_string) in H. rewrite !NilEmpty.usu in H.
  injection H as H. apply DecimalN.Unsigned.to_uint_inj in H.
  apply Z2N.inj in H; assumption.
Qed.

Lemma depad_no_r (s : string) : Py.has_char "r" s = false -> depad s = s.
Proof.
  induction s as [|c s IH]; intros H; [reflexivity|].
  cbn [Py.has_char] in H. destruct (decide (c = "r"%char)) as [|Hc]; [discriminate|].
  rewrite depad_no_match, (IH H); [reflexivity|].
  cbn [Py.startswith]. rewrite decide_False by congruence. reflexivity.
Qed.

Lemma depad_padded (k : Z) : depad ("run-" +:+ Py.fmt_02d k) = "run-" +:+ decimal k.
Proof.
  pose proof (string_of_uint_digits "r" (N.to_uint (Z.to_N k)) eq_refl) as Hr.
  fold (decimal k) in Hr.
  assert (Hfmt : Py.fmt_02d k =
                 match decimal k with
                 | "" => "00"
                 | String c "" => String "0" (decimal k)
                 | _ => decimal k
                 end) by reflexivity.
  rewrite Hfmt. clear Hfmt.
  destruct (decimal_shape k) as [->|(c & s & Hd & Hc)]; [reflexivity|].
  rewrite Hd in *. destruct s as [|c' s'].
  - change ("run-" +:+ String "0" (String c "")) with ("run-0" +:+ String c "").
    rewrite depad_match, (depad_no_r _ Hr). reflexivity.
  - change ("run-" +:+ String c (String c' s'))
      with (String "r" (String "u" (String "n" (String "-" (String c (String c' s')))))).
    rewrite depad_no_match.
    2:{ cbn [Py.startswith]. rewrite !decide_True by reflexivity.
        rewrite decide_False by congruence. reflexivity. }
    f_equal.
    apply (depad_no_r (String "u" (String "n" (String "-" (String c (String c' s')))))).
    cbn [Py.has_char]. rewrite !decide_False by discriminate. exact Hr.
Qed.

(** X11.  Batch mode names its outputs after the plain decimal run number:
    de-padding the zero-padded identifier [run-NN] of run [k] gives [run-]
    followed by [k] without leading zero, for every run number (so run 1
    is written as [run-1], run 10 as [run-10] and run 100 as [run-100]). *)
Theorem padded_run_is_depadded_to_decimal (k : Z) :
  (0 <= k)%Z ->
  depad ("run-" +:+ Py.fmt_02d k) = "run-" +:+ decimal k /\
  forall pat base,
    output_filename base (depad ("run-" +:+ Py.fmt_02d k)) pat =
      base +:+ "_run-" +:+ decimal k +:+ output_suffix pat.
Proof.
  intros _. split; [apply depad_padded|].
  intros pat base. unfold output_filename. rewrite depad_padded. reflexivity.
Qed.

Lemma padded_run_is_depadded_to_decimal_witness :
  depad ("run-" +:+ Py.fmt_02d 100) = "run-" +:+ decimal 100 /\
  forall pat base,
    output_filename base (depad ("run-" +:+ Py.fmt_02d 100)) pat =
      base +:+ "_run-" +:+ decimal 100 +:+ output_suffix pat.
Proof. apply (padded_run_is_depadded_to_decimal 100). lia. Defined.

Lemma run_ids_depad_inj (n : Z) (run run' : string) :
  run ∈ Run.run_ids n -> run' ∈ Run.run_ids n -> depad run = depad run' -> run = run'.
Proof.
  unfold Run.run_ids. intros Hr Hr' Heq.
  apply list_elem_of_fmap in Hr as (k & -> & Hk).
  apply list_elem_of_fmap in Hr' as (k' & -> & Hk').
  apply elem_of_seqZ in Hk, Hk'.
  rewrite !depad_padded in Heq. apply (inj (String.app "run-")) in Heq.
  apply decimal_inj in Heq; [subst; reflexivity|lia..].
Qed.

Lemma run_jobs_output_inj (func_dir subject session : string)
    (n : Z) (run run' : string) (job job' : string * string) :
  run ∈ Run.run_ids n ->
  run' ∈ Run.run_ids n ->
  job ∈ jobs_of func_dir subject session "rest" run ->
  job' ∈ jobs_of func_dir subject session "rest" run' ->
  job.2 = job'.2 ->
  run = run' /\ job = job'.
Proof.
  intros Hr Hr' Hj Hj' Heq.
  pose proof (depad_no_underscore _ (run_ids_no_underscore _ _ Hr)) as Hu.
  pose proof (depad_no_underscore _ (run_ids_no_underscore _ _ Hr')) as Hu'.
  revert Hj Hj'. unfold jobs_of, file_patterns. cbn [map]. intros Hj Hj'.
  apply elem_of_cons in Hj as [->|Hj]; [|apply list_elem_of_singleton in Hj as ->];
    (apply elem_of_cons in Hj' as [->|Hj']; [|apply list_elem_of_singleton in Hj' as ->]);
    cbn [fst snd] in Heq; apply path_join_inj in Heq;
    unfold output_filename in Heq; cbn [output_suffix] in Heq;
    apply (inj (String.app _)) in Heq; apply (inj (String.app "_")) in Heq;
    apply first_underscore_unique in Heq as [Hrun Hsuf]; try assumption;
    try discriminate Hsuf;
    apply (run_ids_depad_inj n) in Hrun; try assumption; subst run'; split; reflexivity.
Qed.

Lemma NoDup_run_ids (n : Z) : NoDup (Run.run_ids n).
Proof.
  unfold Run.run_ids.
  apply (NoDup_fmap_2_strong (fun run => "run-" +:+ Py.fmt_02d run)); [|apply NoDup_seqZ].
  intros k k' Hk Hk' Heq. apply elem_of_seqZ in Hk, Hk'.
  apply (f_equal depad) in Heq. rewrite !depad_padded in Heq.
  apply (inj (String.app "run-")) in Heq. apply decimal_inj in Heq; lia.
Qed.

Lemma NoDup_run_outputs (func_dir subject session : string) (n : Z) (runs : list string) :
  (forall run, run ∈ runs -> run ∈ Run.run_ids n) ->
  NoDup runs ->
  NoDup (map snd (flat_map (jobs_of func_dir subject session "rest") runs)).
Proof.
  induction runs as [|run runs IH]; intros Hall Hnd; [constructor|].
  apply NoDup_cons in Hnd as [Hnotin Hnd].
  assert (Hrun : run ∈ Run.run_ids n) by (apply Hall; left).
  cbn [flat_map]. rewrite map_app. apply NoDup_app. split; [|split].
  - unfold jobs_of, file_patterns. cbn [map snd].
    apply NoDup_cons. split; [|apply NoDup_singleton].
    intros Heq. apply list_elem_of_singleton in Heq.
    destruct (run_jobs_output_inj func_dir subject session n run run
                (path_join func_dir
                   (input_filename (subject +:+ "_" +:+ session +:+ "_task-" +:+ "rest") run
                      (mkPattern "_desc-filteredincludingFD_motion.tsv"
                         "_desc-filtered_motion.tsv" "Filtered including FD -> Filtered")),
                 path_join func_dir
                   (output_filename (subject +:+ "_" +:+ session +:+ "_task-" +:+ "rest")
                      (depad run)
                      (mkPattern "_desc-filteredincludingFD_motion.tsv"
                         "_desc-filtered_motion.tsv" "Filtered including FD -> Filtered")))
                (path_join func_dir
                   (input_filename (subject +:+ "_" +:+ session +:+ "_task-" +:+ "rest") run
                      (mkPattern "_desc-includingFD_motion.tsv" "_motion.tsv"
                         "Including FD -> Motion")),
                 path_join func_dir
                   (output_filename (subject +:+ "_" +:+ session +:+ "_task-" +:+ "rest")
                      (depad run)
                      (mkPattern "_desc-includingFD_motion.tsv" "_motion.tsv"
                         "Including FD -> Motion")))
                Hrun Hrun) as [_ Hjob];
      [left|right; left|exact Heq|].
    apply (f_equal fst) in Hjob. cbn [fst] in Hjob. apply path_join_inj in Hjob.
    unfold input_filename in Hjob. cbn [input_suffix] in Hjob.
    apply (inj (String.app _)), (inj (String.app "_")), (inj (String.app run)) in Hjob.
    discriminate Hjob.
  - intros o Ho Ho'.
    apply list_elem_of_fmap in Ho as (job & -> & Hjob).
    apply list_elem_of_fmap in Ho' as (job' & Heq & Hjob').
    apply list_elem_of_In, in_flat_map in Hjob' as (run' & Hrun' & Hjob').
    apply list_elem_of_In in Hrun', Hjob'.
    destruct (run_jobs_output_inj func_dir subject session n run run' job job'
                Hrun (Hall run' (list_elem_of_further _ _ _ Hrun')) Hjob Hjob' Heq) as [-> _].
    contradiction.
  - apply IH; [|exact Hnd]. intros run' Hin. apply Hall. right. exact Hin.
Qed.

(** X12.  Within one session of a batch, the run and pattern loops aim at
    pairwise distinct output files, two for each enumerated run: no
    earlier iteration can make a later one skip its file as already
    existing. *)
Theorem batch_iterations_write_distinct_files (func_dir subject session : string) (n : Z) :
  let jobs := flat_map (jobs_of func_dir subject session "rest") (Run.run_ids n) in
  NoDup (map snd jobs) /\ length jobs = (2 * Z.to_nat n)%nat.
Proof.
  cbv zeta. split.
  - apply (NoDup_run_outputs func_dir subject session n); [auto|apply NoDup_run_ids].
  - rewrite <- (length_run_ids n).
    induction (Run.run_ids n) as [|run runs IH]; [reflexivity|].
    cbn [flat_map]. rewrite length_app, IH. cbn [length jobs_of file_patterns map]. lia.
Qed.

(** ** Session discovery at the group level *)

Lemma contains_char (c : ascii) (s : string) :
  Py.contains (String c "") s = Py.has_char c s.
Proof.
  induction s as [|x s IH]; [reflexivity|].
  cbn [Py.contains Py.has_char Py.startswith]. rewrite IH.
  destruct (decide (c = x)) as [->|Hne].
  - rewrite decide_True by reflexivity. reflexivity.
  - rewrite decide_False by congruence. reflexivity.
Qed.

Lemma split_go_match (sep cur s : string) :
  sep <> "" -> Py.contains sep s = true ->
  exists a b l, Py.split_go sep 0 cur s = a :: b :: l.
Proof.
  intros Hsep. revert cur. induction s as [|c s IH]; intros cur H.
  - destruct sep; [contradiction|discriminate H].
  - cbn [Py.split_go]. destruct (Py.startswith sep (String c s)) eqn:Hs.
    + pose proof (split_go_nonempty sep (String.length sep - 1) "" s) as Hne.
      destruct (Py.split_go sep (String.length sep - 1) "" s) as [|b l]; [contradiction|].
      eauto.
    + cbn [Py.contains] in H. rewrite Hs in H. apply (IH (String c cur)). exact H.
Qed.

Lemma split_single (sep s x : string) :
  sep <> "" -> Py.split sep s = [x] -> Py.contains sep s = false.
Proof.
  intros Hsep H. destruct (Py.contains sep s) eqn:Hc; [|reflexivity].
  destruct (split_go_match sep "" s Hsep Hc) as (a & b & l & Hab).
  unfold Py.split in H. congruence.
Qed.

Lemma drop_app (a b : string) : Py.drop (String.length a) (a +:+ b) = b.
Proof.
  induction a as [|c a IH]; [destruct b; reflexivity|].
  rewrite str_app_cons. exact IH.
Qed.

Lemma replace_go_skip (old new a s : string) :
  Py.replace_go old new (String.length a) (a +:+ s) = Py.replace_go old new 0 s.
Proof.
  induction a as [|c a IH]; [reflexivity|].
  rewrite str_app_cons. exact IH.
Qed.

Lemma replace_prefix (c : ascii) (old new s : string) :
  Py.replace (String c old) new (String c old +:+ s) =
    new +:+ Py.replace (String c old) new s.
Proof.
  unfold Py.replace. rewrite str_app_cons. cbn [Py.replace_go].
  rewrite <- str_app_cons, startswith_app.
  cbn [String.length]. rewrite Nat.sub_1_r. cbn [Nat.pred].
  rewrite replace_go_skip. reflexivity.
Qed.

Lemma replace_no_match (old new s : string) :
  Py.contains old s = false -> Py.replace old new s = s.
Proof.
  unfold Py.replace. induction s as [|c s IH]; intros H; [reflexivity|].
  cbn [Py.contains] in H. apply orb_false_iff in H as [Hs Hc].
  cbn [Py.replace_go]. rewrite Hs, (IH Hc). reflexivity.
Qed.

Lemma subdirs_spec (fs : gmap string node) (d name : string) :
  name ∈ Run.subdirs fs d <->
  fs !! path_join d name = Some Dir /\ Py.has_char "/" name = false.
Proof.
  unfold Run.subdirs. rewrite list_elem_of_In, in_flat_map. split.
  - intros ([p n] & Hin & Hname).
    apply list_elem_of_In, elem_of_map_to_list in Hin.
    destruct n as [|text]; [|destruct Hname].
    destruct (Py.startswith (d +:+ "/") p) eqn:Hs; [|destruct Hname].
    destruct (Py.split "/" (Py.drop (String.length d + 1) p)) as [|x [|y l]] eqn:Hsp;
      [destruct Hname| |destruct Hname].
    destruct Hname as [<-|[]].
    apply startswith_inv in Hs. rewrite str_length_app in Hs. cbn [String.length] in Hs.
    split.
    + unfold path_join. rewrite <- str_app_assoc, <- Hs. exact Hin.
    + rewrite <- contains_char. apply (split_single _ _ x); [discriminate|exact Hsp].
  - intros [Hdir Hslash]. exists (path_join d name, Dir).
    split; [apply list_elem_of_In, elem_of_map_to_list; exact Hdir|].
    unfold path_join. rewrite <- str_app_assoc, startswith_app.
    replace (String.length d + 1)%nat with (String.length (d +:+ "/"))
      by (rewrite str_length_app; reflexivity).
    rewrite drop_app, split_no_match by (rewrite contains_char; exact Hslash).
    left. reflexivity.
Qed.

(** X13.  Session discovery of the group level.  The labels handed to the
    subject/session loop are in ascending order and without repetition.
    Each of them comes from a directory [ses-...] directly under the
    directory of one of the participants, by deleting every [ses-] from its
    name; and every directory [ses-L] directly under an existing
    participant directory, with no further [ses-] inside [L], contributes
    its label [L]. *)
Theorem discovered_sessions (fs : gmap string node) (bids_dir : string)
    (participant_labels : list string) :
  let found := Run.discover_sessions fs bids_dir participant_labels in
  Sorted String.le found /\
  NoDup found /\
  (forall label, label ∈ found ->
     exists participant name,
       participant ∈ participant_labels /\
       fs !! path_join (path_join bids_dir ("sub-" +:+ participant)) name = Some Dir /\
       Py.startswith "ses-" name = true /\
       Py.has_char "/" name = false /\
       label = Py.replace "ses-" "" name) /\
  (forall participant L,
     participant ∈ participant_labels ->
     path_exists fs (path_join bids_dir ("sub-" +:+ participant)) = true ->
     fs !! path_join (path_join bids_dir ("sub-" +:+ participant)) ("ses-" +:+ L) = Some Dir ->
     Py.has_char "/" L = false ->
     Py.contains "ses-" L = false ->
     L ∈ found).
Proof.
  cbv zeta. unfold Run.discover_sessions.
  split; [apply (Sorted_merge_sort String.le)|].
  split; [rewrite merge_sort_Permutation; apply NoDup_remove_dups|].
  split.
  - intros label. rewrite merge_sort_Permutation, elem_of_remove_dups.
    rewrite list_elem_of_In, in_flat_map. intros (pl & Hpl & Hin).
    destruct (path_exists fs (path_join bids_dir ("sub-" +:+ pl))); [|destruct Hin].
    apply list_elem_of_In, list_elem_of_fmap in Hin as (name & -> & Hname).
    apply list_elem_of_filter in Hname as [Hses Hsub].
    apply subdirs_spec in Hsub as [Hdir Hslash].
    exists pl, name. split; [apply list_elem_of_In; exact Hpl|]. auto.
  - intros pl L Hpl Hex Hdir Hslash Hinner.
    rewrite merge_sort_Permutation, elem_of_remove_dups.
    rewrite list_elem_of_In, in_flat_map. exists pl.
    split; [apply list_elem_of_In; exact Hpl|]. rewrite Hex.
    apply list_elem_of_In, list_elem_of_fmap. exists ("ses-" +:+ L). split.
    + rewrite replace_prefix, (replace_no_match _ _ _ Hinner). reflexivity.
    + apply list_elem_of_filter. split; [apply startswith_app|].
      apply subdirs_spec. split; [exact Hdir|].
      rewrite has_char_app, Hslash. reflexivity.
Qed.

Lemma discovered_sessions_witness :
  "01" ∈ Run.discover_sessions
           {[ "root/sub-01" := Dir; "root/sub-01/ses-01" := Dir ]} "root" ["01"].
Proof.
  apply (proj2 (proj2 (proj2 (discovered_sessions
           {[ "root/sub-01" := Dir; "root/sub-01/ses-01" := Dir ]} "root" ["01"])))
         "01" "01").
  - left.
  - reflexivity.
  - reflexivity.
  - reflexivity.
  - reflexivity.
Defined.

(** ** Exit status of the batch entry point *)


(** ** A warning that is never logged *)

Lemma process_pattern_levels (E : env) (func_dir base run new_run : string)
    (fs : gmap string node) (log : list event) (n : nat) (pat : pattern) :
  Forall (fun e => (level e <= 3)%nat) log ->
  Forall (fun e => (level e <= 3)%nat)
    (process_pattern E func_dir base run new_run (fs, log, n) pat).1.2.
Proof.
  intros Hlog. unfold process_pattern.
  destruct (path_exists fs (path_join func_dir (input_filename base run pat))); cbn [negb].
  2:{ cbn [fst snd]. repeat (apply Forall_app; split); try exact Hlog;
        repeat constructor. }
  destruct (path_exists fs (path_join func_dir (output_filename base new_run pat))).
  { cbn [fst snd]. repeat (apply Forall_app; split); try exact Hlog;
      repeat constructor. }
  pose proof (process_motion_tsv_events E fs
                (path_join func_dir (input_filename base run pat))
                (path_join func_dir (output_filename base new_run pat))) as Hev.
  destruct (process_motion_tsv E fs _ _) as [[fs' l] ok]. cbn [fst snd] in Hev.
  assert (Hl : Forall (fun e => (level e <= 3)%nat) l).
  { eapply Forall_impl; [exact Hev|]. cbn beta. intros e ->. lia. }
  destruct ok; cbn [fst snd]; repeat (apply Forall_app; split);
    try exact Hlog; try exact Hl; repeat constructor.
Qed.

Lemma process_patterns_levels (E : env) (fs : gmap string node)
    (func_dir subject session task run : string) :
  Forall (fun e => (level e <= 3)%nat)
    (process_patterns E fs func_dir subject session task run).2.
Proof.
  unfold process_patterns.
  assert (Hloop : forall pats st,
            Forall (fun e => (level e <= 3)%nat) st.1.2 ->
            Forall (fun e => (level e <= 3)%nat)
              (foldl (process_pattern E func_dir
                        (subject +:+ "_" +:+ session +:+ "_task-" +:+ task) run (depad run))
                 st pats).1.2).
  { induction pats as [|pat pats IH]; intros [[fs0 log0] n0] H; [exact H|].
    cbn [foldl]. apply IH. apply process_pattern_levels. exact H. }
  specialize (Hloop file_patterns (fs, [ProcessingRun subject session task run], 0%nat)).
  destruct (foldl _ _ file_patterns) as [[fs' log] n]. cbn [fst snd] in *.
  apply Forall_app. split; [apply Hloop; repeat constructor|].
  destruct (0 <? n)%nat; repeat constructor.
Qed.

Lemma process_subject_session_levels (E : env) (fs : gmap string node)
    (bids_dir subject session : string) :
  Forall (fun e => (level e <= 3)%nat)
    (Run.process_subject_session E fs bids_dir subject session).1.2.
Proof.
  unfold Run.process_subject_session.
  destruct (path_exists fs (func_dir_of bids_dir subject session)); cbn [negb];
    [|repeat constructor].
  destruct (path_exists fs _); cbn [negb]; [|repeat constructor].
  destruct (Run.load_shape E fs _) as [[|n0 shape]|e]; [constructor| |constructor].
  assert (Hloop : forall runs st,
            Forall (fun e => (level e <= 3)%nat) st.2 ->
            Forall (fun e => (level e <= 3)%nat)
              (foldl (fun '(fs, log) run_str =>
                        let '(fs', l) := Run.process_run E fs
                                           (func_dir_of bids_dir subject session)
                                           subject session "rest" run_str in
                        (fs', log ++ l)) st runs).2).
  { induction runs as [|run runs IH]; intros [fs0 log0] H; [exact H|].
    cbn [foldl]. apply IH.
    pose proof (process_patterns_levels E fs0 (func_dir_of bids_dir subject session)
                  subject session "rest" run) as Hp.
    unfold Run.process_run. destruct (process_patterns _ _ _ _ _ _ _) as [fs1 l1].
    cbn [fst snd] in *. apply Forall_app. split; assumption. }
  specialize (Hloop (Run.run_ids (n0 / 383)) (fs, [Timepoints n0; RestRuns (n0 / 383)])).
  destruct (foldl _ _ _) as [fs' log]. cbn [fst snd] in *.
  apply Hloop. repeat constructor.
Qed.

Lemma process_pair_no_sessions (E : env) (bids_dir : string) (session_labels : list string)
    (fs : gmap string node) (log : list event) (pair : string * string) :
  session_labels <> [] ->
  Forall (fun e => forall s, e <> NoSessions s) log ->
  Forall (fun e => forall s, e <> NoSessions s)
    (Run.process_pair E bids_dir session_labels (fs, log) pair).2.
Proof.
  intros Hne Hlog. unfold Run.process_pair. destruct pair as [pl sl].
  destruct (path_exists fs _); cbn [negb].
  2:{ cbn [snd]. repeat (apply Forall_app; split); try exact Hlog;
        repeat constructor; discriminate. }
  destruct session_labels as [|s0 ss]; [contradiction|].
  pose proof (process_subject_session_levels E fs bids_dir ("sub-" +:+ pl) ("ses-" +:+ sl))
    as Hlv.
  assert (Hl : Forall (fun e => forall s, e <> NoSessions s)
                 (Run.process_subject_session E fs bids_dir
                    ("sub-" +:+ pl) ("ses-" +:+ sl)).1.2).
  { eapply Forall_impl; [exact Hlv|]. cbn beta. intros e He s ->. cbn in He. lia. }
  destruct (Run.process_subject_session E fs bids_dir _ _) as [[fs' l] [u|e]];
    cbn [fst snd] in *; repeat (apply Forall_app; split);
    try exact Hlog; try exact Hl; repeat constructor; discriminate.
Qed.

Lemma process_pairs_no_sessions (E : env) (fs : gmap string node) (bids_dir : string)
    (participant_labels session_labels : list string) :
  Forall (fun e => forall s, e <> NoSessions s)
    (Run.process_pairs E fs bids_dir participant_labels session_labels).2.
Proof.
  unfold Run.process_pairs. destruct session_labels as [|s0 ss].
  - assert (Hnil : flat_map (fun p : string => map (fun s : string => (p, s)) [])
                     participant_labels = []).
    { induction participant_labels as [|p ps IH]; [reflexivity|exact IH]. }
    rewrite Hnil. constructor.
  - assert (Hloop : forall pairs st,
              Forall (fun e => forall s, e <> NoSessions s) st.2 ->
              Forall (fun e => forall s, e <> NoSessions s)
                (foldl (Run.process_pair E bids_dir (s0 :: ss)) st pairs).2).
    { induction pairs as [|pair pairs IH]; intros [fs0 log0] H; [exact H|].
      cbn [foldl]. apply IH. apply process_pair_no_sessions; [discriminate|exact H]. }
    apply Hloop. constructor.
Qed.

(** X15.  The warning "No session directories found" of the
    subject/session loop of [run.py] is never logged, at either analysis
    level: the loop body runs once per session label, so inside it the
    list of session labels is not empty. *)
Theorem no_sessions_warning_is_unreachable (E : env) (fs : gmap string node)
    (bids_dir analysis_level : string)
    (participant_labels session_labels : option (list string)) (subject : string) :
  NoSessions subject ∉
    (Run.run_participant_level E fs bids_dir analysis_level
       participant_labels session_labels).1.2.
Proof.
  assert (H : Forall (fun e => forall s, e <> NoSessions s)
                (Run.run_participant_level E fs bids_dir analysis_level
                   participant_labels session_labels).1.2).
  { unfold Run.run_participant_level.
    destruct (decide (analysis_level = "group")) as [_|_].
    - pose proof (process_pairs_no_sessions E fs bids_dir
                    (map (Py.replace "sub-" "") (get_subjects E fs bids_dir))
                    (Run.discover_sessions fs bids_dir
                       (map (Py.replace "sub-" "") (get_subjects E fs bids_dir)))) as Hp.
      destruct (Run.process_pairs _ _ _ _ _) as [fs' l]. cbn [fst snd] in *.
      repeat (apply Forall_app; split); try exact Hp; repeat constructor; discriminate.
    - destruct participant_labels as [[|pl pls]|];
        try (cbn [fst snd]; repeat constructor; discriminate);
        destruct session_labels as [[|sl sls]|];
        try (cbn [fst snd]; repeat constructor; discriminate).
      pose proof (process_pairs_no_sessions E fs bids_dir (pl :: pls) (sl :: sls)) as Hp.
      destruct (Run.process_pairs _ _ _ _ _) as [fs' l]. cbn [fst snd] in *.
      repeat (apply Forall_app; split); try exact Hp; repeat constructor; discriminate. }
  intros Hin. rewrite Forall_forall in H. exact (H _ Hin subject eq_refl).
Qed.

(** ** A batch session, end to end *)


